(** * analyze_setups.py: the setup-analysis pipeline, embedded and verified

    The script reads every [*.json] setup of a folder, projects a fixed
    set of metadata fields out of each document, counts the component
    files each setup references, and writes one wide table (one row per
    setup, one column per component file seen anywhere) followed by a
    printed summary.

    The embedding follows the Python text function by function.  JSON
    values are an inductive type, Python dictionaries that are used as
    maps are [gmap]s, the set of component files is a [gset], the row
    dictionaries (whose key order becomes the column order) are
    association lists, and logging, printing, writing and raising are a
    small trace-and-error monad. *)

From Stdlib Require Import Ascii String Floats.SpecFloat.
From stdpp Require Import gmap strings list sorting pretty.

Set Warnings "-register-all".

(** ** Python values *)

(** What [json.load] can return.  Strings are [string]: one [ascii] per
    character, so the model covers text whose characters fit eight bits;
    none of the operations below looks at a character other than by
    comparing it.  Floats are IEEE values ([NaN] and the infinities are
    accepted by [json.load]). *)
Inductive json :=
  | JNull
  | JBool (b : bool)
  | JInt (n : Z)
  | JFloat (f : spec_float)
  | JStr (s : string)
  | JList (l : list json)
  | JDict (d : gmap string json).

(** The exceptions the script can let escape. *)
Inductive exn := TypeError | AttributeError | KeyError.

(** [bool(x)]: what [if x:] and [not x] test. *)
Definition py_truthy (x : json) : bool :=
  match x with
  | JNull => false
  | JBool b => b
  | JInt n => negb (n =? 0)%Z
  | JFloat (S754_zero _) => false
  | JFloat _ => true
  | JStr s => negb (bool_decide (s = ""))
  | JList l => negb (bool_decide (l = []))
  | JDict d => negb (bool_decide (dom d = ∅))
  end.

Fixpoint str_chars (s : string) : list string :=
  match s with
  | "" => []
  | String c s' => String c "" :: str_chars s'
  end.

(** [for x in v]: the items a [for] loop visits, [TypeError] when [v] is
    not iterable.  A mapping yields its keys (in the order of the set
    here; the script only counts them), a string its characters. *)
Definition py_iter (v : json) : exn + list json :=
  match v with
  | JList l => inr l
  | JDict d => inr (JStr <$> elements (dom d))
  | JStr s => inr (JStr <$> str_chars s)
  | _ => inl TypeError
  end.

(** [len(v)]. *)
Definition py_len (v : json) : exn + nat :=
  match v with
  | JList l => inr (length l)
  | JDict d => inr (size d)
  | JStr s => inr (String.length s)
  | _ => inl TypeError
  end.

(** [data.get(key, default)] on a parsed document; a document that is not
    a mapping has no [get]. *)
Definition py_get (data : json) (key : string) (dflt : json) : exn + json :=
  match data with
  | JDict d => inr (default dflt (d !! key))
  | _ => inl AttributeError
  end.

(** ** Strings *)

Fixpoint str_drop (n : nat) (s : string) : string :=
  match n, s with
  | O, _ => s
  | S _, "" => ""
  | S k, String _ s' => str_drop k s'
  end.

(** [s.rfind(c)] for a one-character [c]: the last index, [None] for -1. *)
Fixpoint rfind_char (c : ascii) (s : string) : option nat :=
  match s with
  | "" => None
  | String a s' =>
      match rfind_char c s' with
      | Some i => Some (S i)
      | None => if decide (a = c) then Some 0 else None
      end
  end.

(** [posixpath.basename]: [i = p.rfind('/') + 1; return p[i:]]. *)
Definition posixpath_basename (p : string) : string :=
  match rfind_char "/" p with
  | Some i => str_drop (S i) p
  | None => p
  end.

(** [s.replace(old, new)], every non-overlapping occurrence from the
    left.  [skip] counts the characters of a match still to be dropped. *)
Fixpoint replace_from (old new : string) (skip : nat) (s : string) : string :=
  match s with
  | "" => ""
  | String c s' =>
      match skip with
      | S k => replace_from old new k s'
      | O =>
          if String.prefix old s
          then new +:+ replace_from old new (String.length old - 1) s'
          else String c (replace_from old new 0 s')
      end
  end.

Fixpoint intersperse_after (new s : string) : string :=
  match s with
  | "" => ""
  | String c s' => String c (new +:+ intersperse_after new s')
  end.

Definition str_replace (old new s : string) : string :=
  match old with
  | "" => new +:+ intersperse_after new s
  | _ => replace_from old new 0 s
  end.

Definition startswith (pre s : string) : bool := String.prefix pre s.

Definition nl : string := String "010" "".

Fixpoint str_repeat (s : string) (n : nat) : string :=
  match n with
  | O => ""
  | S k => s +:+ str_repeat s k
  end.

(** ** Effects *)

(** [pd.DataFrame]: the column labels and the cell grid, row by row.  A
    cell holds the Python value the row dictionary gave it, and is [None]
    where pandas holds the missing value (NaN): for a key the row lacks,
    and for a value that is [None] or NaN itself.  The type pandas gives
    a column, and with it the text [to_csv] writes, is a function of the
    cells.  The row index is left out: the script writes with
    [index=False]. *)
Record DataFrame := {
  columns : list string;
  values : list (list (option json))
}.

(** What a run does to the outside world, in order. *)
Inductive event :=
  | LogInfo (msg : string)
  | LogError (msg : string)
  | ToCsv (output_file : string) (df : DataFrame)
  | Print (line : string).

(** Pure code that may raise. *)
Definition result (A : Type) : Type := exn + A.

Definition rbind {A B} (r : result A) (k : A → result B) : result B :=
  match r with
  | inl e => inl e
  | inr a => k a
  end.

(** Code that logs, prints or writes, and may raise: the events so far
    and either the exception that ended the call or its value. *)
Definition M (A : Type) : Type := list event * result A.

Definition ret {A} (a : A) : M A := ([], inr a).
Definition raise {A} (e : exn) : M A := ([], inl e).
Definition emit (ev : event) : M unit := ([ev], inr tt).
Definition lift {A} (r : result A) : M A := ([], r).

Definition bind {A B} (m : M A) (k : A → M B) : M B :=
  match m with
  | (tr, inl e) => (tr, inl e)
  | (tr, inr a) => let '(tr', r) := k a in (tr ++ tr', r)
  end.

Global Arguments bind : simpl never.

Notation "x <-? r ;; k" := (rbind r (fun x => k))
  (at level 100, r at next level, right associativity).
Notation "x <- m ;; k" := (bind m (fun x => k))
  (at level 100, m at next level, right associativity).
Notation "m ;;; k" := (bind m (fun _ => k))
  (at level 100, right associativity).

Definition logger_info (msg : string) : M unit := emit (LogInfo msg).
Definition logger_error (msg : string) : M unit := emit (LogError msg).
Definition print (line : string) : M unit := emit (Print line).

(** ** Row dictionaries *)

(** A Python [dict] whose key order is observed (it becomes the column
    order): the items in insertion order, keys distinct. *)
Definition pydict : Type := list (string * json).

(** [d[k] = v]: an existing key keeps its place, a new one goes last. *)
Fixpoint dict_setitem (k : string) (v : json) (d : pydict) : pydict :=
  match d with
  | [] => [(k, v)]
  | (k', v') :: d' =>
      if decide (k = k') then (k, v) :: d' else (k', v') :: dict_setitem k v d'
  end.

Fixpoint dict_lookup (k : string) (d : pydict) : option json :=
  match d with
  | [] => None
  | (k', v) :: d' => if decide (k = k') then Some v else dict_lookup k d'
  end.

Definition dict_keys (d : pydict) : list string := d.*1.

(** ** pandas *)

Definition add_label (cols : list string) (k : string) : list string :=
  if decide (k ∈ cols) then cols else cols ++ [k].

(** The cell pandas holds for a value of a row dictionary: [None] and a
    float NaN are the missing value (what [isna] reports and [to_csv]
    writes as the empty field), every other value is kept. *)
Definition frame_cell (v : json) : option json :=
  match v with
  | JNull => None
  | JFloat S754_nan => None
  | _ => Some v
  end.

(** [pd.DataFrame(rows)] for a list of dictionaries: the columns are the
    keys in order of first appearance; a cell is missing where the row
    lacks the key and where its value is [None] or NaN. *)
Definition DataFrame_of_rows (rows : list pydict) : DataFrame :=
  let cols := foldl (λ cols r, foldl add_label cols (dict_keys r)) [] rows in
  {| columns := cols;
     values := (λ r, (λ c, dict_lookup c r ≫= frame_cell) <$> cols) <$> rows |}.

Definition column_index (df : DataFrame) (col : string) : option nat :=
  fst <$> list_find (λ c, c = col) (columns df).

(** The sort key of a row under a string-valued column.  The script only
    sorts by ['filename'], whose cells are all [str]; any other cell is
    given the empty key. *)
Definition str_key (i : nat) (row : list (option json)) : string :=
  match row !! i with
  | Some (Some (JStr s)) => s
  | _ => ""
  end.

Definition key_le (i : nat) (r1 r2 : list (option json)) : Prop :=
  String.le (str_key i r1) (str_key i r2).

Global Instance key_le_dec i : RelDecision (key_le i).
Proof. intros r1 r2. unfold key_le. apply _. Defined.

(** [df.sort_values(by)] on a string-valued column, ascending.  pandas
    does not promise an order among rows with equal keys; the model is
    a merge sort, and the theorems that need the order of the rows assume
    the keys distinct. *)
Definition sort_values (by_ : string) (df : DataFrame) : result DataFrame :=
  match column_index df by_ with
  | None => inl KeyError
  | Some i =>
      inr {| columns := columns df;
             values := merge_sort (key_le i) (values df) |}
  end.

(** The order of [sort_values(ascending=False)] on column totals. *)
Definition total_ge (a b : string * Z) : Prop := (b.2 ≤ a.2)%Z.

Global Instance total_ge_dec : RelDecision total_ge.
Proof. intros a b. unfold total_ge. apply _. Defined.

(** [x] put in front of the first entry of [l] that is not above it. *)
Fixpoint insert_total (x : string * Z) (l : list (string * Z)) : list (string * Z) :=
  match l with
  | [] => [x]
  | y :: l' => if decide (total_ge x y) then x :: l else y :: insert_total x l'
  end.

(** [series.sort_values(ascending=False)] on a series of integer totals:
    the largest first, and entries of equal total in the order the series
    had them, as the script's summary shows them.  (pandas documents no
    order among equal values for its default sort; the model is the
    stable sort, which [sort_values_descending_stable] below states.) *)
Definition sort_values_descending (series : list (string * Z)) : list (string * Z) :=
  foldr insert_total [] series.

Definition cell_int (c : option json) : Z :=
  match c with
  | Some (JInt n) => n
  | _ => 0
  end.

(** [df[col].sum()] on a column of integers (NaN counts for 0). *)
Definition column_sum (df : DataFrame) (col : string) : Z :=
  match column_index df col with
  | None => 0
  | Some i => foldr (λ row acc, cell_int (mjoin (row !! i)) + acc)%Z 0%Z (values df)
  end.

(** ** The setup records *)

(** The dictionary [extract_setup_metadata] builds and the scanner
    completes.  [component_counts] is [None] until the scanner stores the
    key. *)
Record SetupMetadata := {
  filename : string;
  name : json;
  uc2_verified : json;
  collection : json;
  author : json;
  github_link : json;
  description : json;
  category : json;
  version : json;
  createdAt : json;
  total_components : nat;
  component_counts : option (gmap string nat)
}.

(** [extract_setup_metadata(data, filename)] *)
Definition extract_setup_metadata (data : json) (filename : string)
    : result SetupMetadata :=
  v_name <-? py_get data "name" (JStr "") ;;
  v_verified <-? py_get data "uc2_verified" (JBool false) ;;
  v_collection <-? py_get data "collection" (JStr "") ;;
  v_author <-? py_get data "author" (JStr "") ;;
  v_github_link <-? py_get data "github_link" (JStr "") ;;
  v_description <-? py_get data "description" (JStr "") ;;
  v_category <-? py_get data "category" (JStr "") ;;
  v_version <-? py_get data "version" (JStr "") ;;
  v_createdAt <-? py_get data "createdAt" (JStr "") ;;
  inr {| filename := filename;
         name := v_name;
         uc2_verified := v_verified;
         collection := v_collection;
         author := v_author;
         github_link := v_github_link;
         description := v_description;
         category := v_category;
         version := v_version;
         createdAt := v_createdAt;
         total_components := 0;
         component_counts := None |}.

Definition set_total_components (n : nat) (m : SetupMetadata) : SetupMetadata :=
  {| filename := filename m; name := name m; uc2_verified := uc2_verified m;
     collection := collection m; author := author m;
     github_link := github_link m; description := description m;
     category := category m; version := version m; createdAt := createdAt m;
     total_components := n;
     component_counts := component_counts m |}.

Definition set_component_counts (c : gmap string nat) (m : SetupMetadata)
    : SetupMetadata :=
  {| filename := filename m; name := name m; uc2_verified := uc2_verified m;
     collection := collection m; author := author m;
     github_link := github_link m; description := description m;
     category := category m; version := version m; createdAt := createdAt m;
     total_components := total_components m;
     component_counts := Some c |}.

(** [Counter(items)]: one more for the item at each occurrence. *)
Definition Counter (items : list string) : gmap string nat :=
  foldl (λ m x, <[x := S (default 0 (m !! x))]> m) ∅ items.

(** The files a run finds in the folder: [glob('*.json')] in the order
    the file system lists them, each with the outcome of opening and
    parsing it. *)
Inductive load_outcome :=
  | Parsed (data : json)
  | JSONDecodeError (e : string)
  | OtherException (e : string).

Record json_file := {
  jf_name : string;       (* json_file.name *)
  jf_path : string;       (* str(json_file) *)
  jf_load : load_outcome
}.

(** [load_json_file(filepath)]: the parsed value, or [None] ([JNull])
    after logging the error. *)
Definition load_json_file (filepath : json_file) : M json :=
  match jf_load filepath with
  | Parsed data => ret data
  | JSONDecodeError e =>
      logger_error ("Invalid JSON in " +:+ jf_path filepath +:+ ": " +:+ e) ;;;
      ret JNull
  | OtherException e =>
      logger_error ("Error reading " +:+ jf_path filepath +:+ ": " +:+ e) ;;;
      ret JNull
  end.

(** The eleven keys of a row, in the order the row literal lists them. *)
Definition metadata_fields : list string :=
  ["filename"; "name"; "uc2_verified"; "collection"; "author"; "github_link";
   "description"; "category"; "version"; "createdAt"; "total_components"].

(** The column of a component file: the file name with every period,
    space and hyphen turned into an underscore, after ["component_"]. *)
Definition col_name (component_file : string) : string :=
  "component_" +:+
    str_replace "-" "_" (str_replace " " "_" (str_replace "." "_" component_file)).

(** [sorted(s)] on a set of strings: the one ascending list of its
    members. *)
Definition sorted (s : gset string) : list string :=
  merge_sort String.le (elements s).

Section pipeline.
(** [os.path.basename] on a [str]: [posixpath.basename] or
    [ntpath.basename], by the host. *)
Variable basename : string → string.

(** Lines 204 to 224 of [create_csv_database]: the mean, maximum and
    minimum of [total_components], the share of verified setups, and the
    five most frequent authors and collections.  They format floating
    point numbers and go through pandas' [value_counts]; the pipeline
    takes them as given: the lines they print for a table, and the
    exception that ends them, if any. *)
Variable summary_statistics : DataFrame → list string * option exn.

(** [os.path.basename(file_path)]: [os.fspath] refuses what is not a
    string. *)
Definition os_path_basename (file_path : json) : result string :=
  match file_path with
  | JStr s => inr (basename s)
  | _ => inl TypeError
  end.

(** The loop of [count_components_by_file]: the list [component_files]
    after the components have been visited. *)
Fixpoint component_files (uc2_components : list json) : result (list string) :=
  match uc2_components with
  | [] => inr []
  | component :: rest =>
      match component with
      | JDict d =>
          match d !! "file" with
          | Some file_path =>
              if py_truthy file_path then
                filename <-? os_path_basename file_path ;;
                files <-? component_files rest ;;
                inr (filename :: files)
              else component_files rest
          | None => component_files rest
          end
      | _ => component_files rest
      end
  end.

(** [count_components_by_file(uc2_components)] *)
Definition count_components_by_file (uc2_components : json)
    : result (gmap string nat) :=
  if negb (py_truthy uc2_components) then inr ∅
  else
    items <-? py_iter uc2_components ;;
    files <-? component_files items ;;
    inr (Counter files).

(** The body of the scanner's loop for one parsed document (lines 126
    to 140): the completed record and the counts stored in it. *)
Definition scan_document (data : json) (file_name : string)
    : result (SetupMetadata * gmap string nat) :=
  setup_metadata <-? extract_setup_metadata data file_name ;;
  uc2_components <-? py_get data "uc2_components" (JList []) ;;
  n <-? py_len uc2_components ;;
  let setup_metadata := set_total_components n setup_metadata in
  counts <-? count_components_by_file uc2_components ;;
  inr (set_component_counts counts setup_metadata, counts).

(** The [for json_file in json_files] loop, threading
    [setup_data_list] and [all_component_files]. *)
Fixpoint scan_files (json_files : list json_file)
    (setup_data_list : list SetupMetadata) (all_component_files : gset string)
    : M (list SetupMetadata * gset string) :=
  match json_files with
  | [] => ret (setup_data_list, all_component_files)
  | f :: rest =>
      logger_info ("Processing: " +:+ jf_name f) ;;;
      data <- load_json_file f ;;
      match data with
      | JNull => scan_files rest setup_data_list all_component_files
      | _ =>
          res <- lift (scan_document data (jf_name f)) ;;
          let '(setup_metadata, counts) := res in
          scan_files rest (setup_data_list ++ [setup_metadata])
            (all_component_files ∪ dom counts)
      end
  end.

(** [analyze_setups_folder(setups_folder)]; [folder] is [None] when the
    path does not exist. *)
Definition analyze_setups_folder (setups_folder : string)
    (folder : option (list json_file))
    : M (list SetupMetadata * gset string) :=
  match folder with
  | None =>
      logger_error ("Setups folder not found: " +:+ setups_folder) ;;;
      ret ([], ∅)
  | Some json_files =>
      logger_info ("Found " +:+ pretty (length json_files) +:+
                   " JSON files in " +:+ setups_folder) ;;;
      res <- scan_files json_files [] ∅ ;;
      logger_info ("Successfully processed " +:+ pretty (length res.1) +:+
                   " setup files") ;;;
      logger_info ("Found " +:+ pretty (size res.2) +:+
                   " unique component files") ;;;
      ret res
  end.

(** The row literal of lines 165 to 177. *)
Definition row_literal (setup : SetupMetadata) : pydict :=
  [("filename", JStr (filename setup));
   ("name", name setup);
   ("uc2_verified", uc2_verified setup);
   ("collection", collection setup);
   ("author", author setup);
   ("github_link", github_link setup);
   ("description", description setup);
   ("category", category setup);
   ("version", version setup);
   ("createdAt", createdAt setup);
   ("total_components", JInt (Z.of_nat (total_components setup)))].

(** Lines 180 to 184: one assignment per component file, in sorted
    order, of that file's count in this setup or 0. *)
Definition add_component_columns (component_counts : gmap string nat)
    (all_component_files : gset string) (row : pydict) : pydict :=
  foldl (λ row component_file,
           dict_setitem (col_name component_file)
             (JInt (Z.of_nat (default 0 (component_counts !! component_file))))
             row)
    row (sorted all_component_files).

(** The row dictionary of one setup; [setup['component_counts']] raises
    when the key was never stored. *)
Definition row_of (setup : SetupMetadata) (all_component_files : gset string)
    : result pydict :=
  let row := row_literal setup in
  match component_counts setup with
  | None => inl KeyError
  | Some counts => inr (add_component_columns counts all_component_files row)
  end.

Fixpoint rows_of (setup_data_list : list SetupMetadata)
    (all_component_files : gset string) : result (list pydict) :=
  match setup_data_list with
  | [] => inr []
  | setup :: rest =>
      row <-? row_of setup all_component_files ;;
      rows <-? rows_of rest all_component_files ;;
      inr (row :: rows)
  end.

(** [df[component_cols].sum().sort_values(ascending=False)]: the
    component columns with their totals, largest first, columns of equal
    total in the order of the columns. *)
Definition component_totals (df : DataFrame) : list (string * Z) :=
  let component_cols := filter (λ col, startswith "component_" col = true) (columns df) in
  sort_values_descending ((λ col, (col, column_sum df col)) <$> component_cols).

(** The lines of the "most used" block: the ten largest totals, those
    above zero printed under their 1-based rank. *)
Definition most_used_lines (df : DataFrame) : list string :=
  omap (λ '(i, (col, count)),
          if decide (0 < count)%Z then
            let component_name := str_replace "_" " " (str_replace "component_" "" col) in
            Some ("  " +:+ pretty (i + 1) +:+ ". " +:+ component_name +:+
                  ": used " +:+ pretty count +:+ " times")
          else None)
       (imap (λ i x, (i, x)) (take 10 (component_totals df))).

Fixpoint print_all (lines : list string) : M unit :=
  match lines with
  | [] => ret tt
  | l :: rest => print l ;;; print_all rest
  end.

(** Lines 161 to 192: the rows, the frame, the sort. *)
Definition build_table (setup_data_list : list SetupMetadata)
    (all_component_files : gset string) : result DataFrame :=
  rows <-? rows_of setup_data_list all_component_files ;;
  let df := DataFrame_of_rows rows in
  sort_values "filename" df.

Definition run_summary_statistics (df : DataFrame) : M unit :=
  print_all (summary_statistics df).1 ;;;
  match (summary_statistics df).2 with
  | Some e => raise e
  | None => ret tt
  end.

(** [create_csv_database(setup_data_list, all_component_files, output_file)] *)
Definition create_csv_database (setup_data_list : list SetupMetadata)
    (all_component_files : gset string) (output_file : string) : M unit :=
  match setup_data_list with
  | [] => logger_error "No setup data to process"
  | _ =>
      df <- lift (build_table setup_data_list all_component_files) ;;
      emit (ToCsv output_file df) ;;;
      logger_info ("CSV database saved to: " +:+ output_file) ;;;
      print (nl +:+ str_repeat "=" 60) ;;;
      print "SETUP ANALYSIS SUMMARY" ;;;
      print (str_repeat "=" 60) ;;;
      print ("Total setup files processed: " +:+ pretty (length (values df))) ;;;
      print ("Total unique component files: " +:+ pretty (size all_component_files)) ;;;
      run_summary_statistics df ;;;
      print (nl +:+ "Most used component files (top 10):") ;;;
      print_all (most_used_lines df) ;;;
      print (nl +:+ "Detailed results saved to: " +:+ output_file) ;;;
      print (str_repeat "=" 60)
  end.

(** [main()]; [folder] is the state of [./setups]. *)
Definition main (folder : option (list json_file)) : M unit :=
  logger_info "Starting UC2 setup analysis..." ;;;
  res <- analyze_setups_folder "./setups" folder ;;
  let '(setup_data_list, all_component_files) := res in
  match setup_data_list with
  | [] => logger_error "No valid setup files found. Exiting."
  | _ =>
      create_csv_database setup_data_list all_component_files "setups_analysis.csv" ;;;
      logger_info "Analysis complete!"
  end.
End pipeline.

(** * Vocabulary of the statements *)

(** ** Counting *)

(** [sum(counts.values())] *)
Definition sum_values (counts : gmap string nat) : nat :=
  map_fold (λ _ v acc, v + acc) 0 counts.

(** The components a [for] loop over [v] visits; none when [v] cannot be
    iterated. *)
Definition entries_of (v : json) : list json :=
  match py_iter v with
  | inr l => l
  | inl _ => []
  end.

(** The path of a usable entry: a mapping whose ['file'] is a non-empty
    string. *)
Definition file_of (component : json) : option string :=
  match component with
  | JDict d =>
      match d !! "file" with
      | Some (JStr s) => if decide (s = "") then None else Some s
      | _ => None
      end
  | _ => None
  end.

Definition usable (component : json) : Prop := is_Some (file_of component).

(** An entry on which [os.path.basename] raises: a mapping whose ['file']
    is truthy and not a string. *)
Definition unsplittable (component : json) : bool :=
  match component with
  | JDict d =>
      match d !! "file" with
      | Some (JStr _) => false
      | Some v => py_truthy v
      | None => false
      end
  | _ => false
  end.

Definition occurrences (k : string) (l : list string) : nat :=
  length (filter (λ x, x = k) l).

(** The value stored under ['uc2_components'], or the default [[]]. *)
Definition uc2_components_of (data : json) : json :=
  match py_get data "uc2_components" (JList []) with
  | inr v => v
  | inl _ => JList []
  end.

(** ** Example inputs *)

(** A component entry with the given path. *)
Definition component (file : string) : json := JDict {[ "file" := JStr file ]}.

(** The record of a setup that holds nothing but components. *)
Definition setup_with (file_name : string) (n : nat) (counts : gmap string nat)
    : SetupMetadata :=
  {| filename := file_name; name := JStr ""; uc2_verified := JBool false;
     collection := JStr ""; author := JStr ""; github_link := JStr "";
     description := JStr ""; category := JStr ""; version := JStr "";
     createdAt := JStr ""; total_components := n;
     component_counts := Some counts |}.

(** A setup with two usable entries and one without a path. *)
Definition example_document : json :=
  JDict {[ "uc2_components" := JList [component "parts/x.stl"; JNull; component "x.stl"] ]}.

(** The folder that holds this setup and nothing else. *)
Definition example_folder : list json_file :=
  [ {| jf_name := "s.json"; jf_path := "setups/s.json";
       jf_load := Parsed example_document |} ].

(** ** Paths and column names *)

Fixpoint has_char (c : ascii) (s : string) : bool :=
  match s with
  | "" => false
  | String a s' => bool_decide (a = c) || has_char c s'
  end.

Fixpoint string_map (f : ascii → ascii) (s : string) : string :=
  match s with
  | "" => ""
  | String c s' => String (f c) (string_map f s')
  end.

(** The characters that end up as an underscore in a column name. *)
Definition underscored (c : ascii) : Prop :=
  (c = "." ∨ c = " " ∨ c = "-" ∨ c = "_")%char.

(** Two names of the same length that differ only where both carry a
    period, space, hyphen or underscore. *)
Fixpoint alike (x y : string) : Prop :=
  match x, y with
  | "", "" => True
  | String a x', String b y' => (a = b ∨ (underscored a ∧ underscored b)) ∧ alike x' y'
  | _, _ => False
  end.

Definition sanitise (c : ascii) : ascii :=
  if decide (c = "." ∨ c = " " ∨ c = "-")%char then "_"%char else c.

(** A folder whose one setup uses a hyphenated and an underscored file
    of otherwise equal name. *)
Definition clashing_folder : list json_file :=
  [ {| jf_name := "s.json"; jf_path := "setups/s.json";
       jf_load := Parsed (JDict {[ "uc2_components" :=
         JList [component "lens-holder.stl"; component "lens_holder.stl";
                component "lens_holder.stl"] ]}) |} ].

(** ** Typed records *)

Definition is_str (v : json) : Prop := match v with JStr _ => True | _ => False end.
Definition is_bool (v : json) : Prop := match v with JBool _ => True | _ => False end.

(** Every fixed field holds a value of its type. *)
Definition well_typed (r : SetupMetadata) : Prop :=
  is_str (name r) ∧ is_bool (uc2_verified r) ∧ is_str (collection r) ∧
  is_str (author r) ∧ is_str (github_link r) ∧ is_str (description r) ∧
  is_str (category r) ∧ is_str (version r) ∧ is_str (createdAt r).

(** The keys of the string-valued fields read from the document. *)
Definition string_fields : list string :=
  ["name"; "collection"; "author"; "github_link"; "description"; "category";
   "version"; "createdAt"].

(** The document holds, under each fixed key it has, a value of the
    field's type. *)
Definition well_typed_document (d : gmap string json) : Prop :=
  (∀ key v, key ∈ string_fields → d !! key = Some v → is_str v) ∧
  (∀ v, d !! "uc2_verified" = Some v → is_bool v).

(** ** Traces *)

(** The tables a run wrote, with their file names. *)
Definition written_tables (tr : list event) : list (string * DataFrame) :=
  omap (λ ev, match ev with ToCsv f df => Some (f, df) | _ => None end) tr.

(** A log record: neither a write nor a printed line. *)
Definition is_log (ev : event) : Prop :=
  match ev with
  | LogInfo _ | LogError _ => True
  | _ => False
  end.

Definition is_print (ev : event) : Prop :=
  match ev with
  | Print _ => True
  | _ => False
  end.

(** The document the scanner takes from a file: none when the file does
    not load, and none when it holds [null], which [data is None] cannot
    tell from a failure. *)
Definition document_of (f : json_file) : option json :=
  match jf_load f with
  | Parsed JNull => None
  | Parsed data => Some data
  | _ => None
  end.

(** A folder that yields no document: missing, or without a file that
    gives one. *)
Definition no_document (folder : option (list json_file)) : Prop :=
  match folder with
  | None => True
  | Some files => Forall (λ f, document_of f = None) files
  end.

(** ** The table of a corpus *)

(** The component files that are first, in the given order, to take
    their column name; [seen] holds the names already taken. *)
Fixpoint column_leaders (seen : list string) (ids : list string) : list string :=
  match ids with
  | [] => []
  | x :: rest =>
      if decide (col_name x ∈ seen) then column_leaders seen rest
      else x :: column_leaders (seen ++ [col_name x]) rest
  end.

(** The header of the table for a set of component files. *)
Definition table_columns (all_component_files : gset string) : list string :=
  metadata_fields ++ (col_name <$> column_leaders [] (sorted all_component_files)).

Definition has_counts (s : SetupMetadata) : Prop := is_Some (component_counts s).

(** The row dictionary of a setup whose counts are stored. *)
Definition filled_row (all_component_files : gset string) (s : SetupMetadata)
    : pydict :=
  add_component_columns (default ∅ (component_counts s)) all_component_files
    (row_literal s).

(** The cells of a setup's row under the header of the table. *)
Definition cells_of (all_component_files : gset string) (s : SetupMetadata)
    : list (option json) :=
  (λ c, dict_lookup c (filled_row all_component_files s) ≫= frame_cell)
    <$> table_columns all_component_files.

(** The table of a corpus: the header, and the rows sorted by their
    first cell. *)
Definition the_table (setups : list SetupMetadata) (all_component_files : gset string)
    : DataFrame :=
  {| columns := table_columns all_component_files;
     values := merge_sort (key_le 0) (cells_of all_component_files <$> setups) |}.

(** The records of the files that load, in order; the first exception
    a document raises ends the scan. *)
Fixpoint scan_docs (basename : string → string) (files : list json_file)
    : result (list (SetupMetadata * gmap string nat)) :=
  match files with
  | [] => inr []
  | f :: rest =>
      match document_of f with
      | Some data =>
          r <-? scan_document basename data (jf_name f) ;;
          rs <-? scan_docs basename rest ;;
          inr (r :: rs)
      | None => scan_docs basename rest
      end
  end.

(** ** The two-setup scenario *)

Definition file_A : json_file :=
  {| jf_name := "A.json"; jf_path := "setups/A.json";
     jf_load := Parsed (JDict {[ "uc2_components" :=
       JList [component "nema17.stl"; component "laser.stl"; component "nema17.stl"] ]}) |}.

Definition file_B : json_file :=
  {| jf_name := "B.json"; jf_path := "setups/B.json";
     jf_load := Parsed (JDict {[ "uc2_components" := JList [component "nema17.stl"] ]}) |}.

Definition scenario_setups : list SetupMetadata :=
  [setup_with "A.json" 3 {[ "nema17.stl" := 2; "laser.stl" := 1 ]};
   setup_with "B.json" 1 {[ "nema17.stl" := 1 ]}].

Definition scenario_universe : gset string := {[ "nema17.stl"; "laser.stl" ]}.

Definition scenario_table : DataFrame :=
  {| columns :=
       ["filename"; "name"; "uc2_verified"; "collection"; "author"; "github_link";
        "description"; "category"; "version"; "createdAt"; "total_components";
        "component_laser_stl"; "component_nema17_stl"];
     values :=
       [[Some (JStr "A.json"); Some (JStr ""); Some (JBool false); Some (JStr "");
         Some (JStr ""); Some (JStr ""); Some (JStr ""); Some (JStr "");
         Some (JStr ""); Some (JStr ""); Some (JInt 3); Some (JInt 1); Some (JInt 2)];
        [Some (JStr "B.json"); Some (JStr ""); Some (JBool false); Some (JStr "");
         Some (JStr ""); Some (JStr ""); Some (JStr ""); Some (JStr "");
         Some (JStr ""); Some (JStr ""); Some (JInt 1); Some (JInt 0); Some (JInt 1)]] |}.

(** ** Further inputs and measures *)

(** A file that does not parse. *)
Definition broken_file : json_file :=
  {| jf_name := "broken.json"; jf_path := "setups/broken.json";
     jf_load := JSONDecodeError "Expecting value" |}.

(** A file that parses to a list, not a mapping. *)
Definition list_file : json_file :=
  {| jf_name := "list.json"; jf_path := "setups/list.json";
     jf_load := Parsed (JList [JInt 1]) |}.

(** A value [len] accepts. *)
Definition measurable (v : json) : bool :=
  match v with
  | JList _ | JDict _ | JStr _ => true
  | _ => false
  end.

(** The part of a path before its last segment is empty or ends with a
    slash. *)
Definition is_directory_part (head : string) : Prop :=
  head = "" ∨ ∃ h, head = h +:+ "/".

(** How often the records of a corpus count a component file, in all. *)
Definition usage (component_file : string) (setups : list SetupMetadata) : Z :=
  foldr (λ s acc,
           Z.of_nat (default 0%nat (default ∅ (component_counts s) !! component_file))
           + acc)%Z
        0%Z setups.

(** What loading a file leaves in the log: nothing when it parses, the
    error otherwise. *)
Definition load_log (f : json_file) : list event :=
  match jf_load f with
  | Parsed _ => []
  | JSONDecodeError e =>
      [LogError ("Invalid JSON in " +:+ jf_path f +:+ ": " +:+ e)]
  | OtherException e =>
      [LogError ("Error reading " +:+ jf_path f +:+ ": " +:+ e)]
  end.

(** The log of a scan that goes through the files given. *)
Definition scan_log (files : list json_file) : list event :=
  files ≫= (λ f, LogInfo ("Processing: " +:+ jf_name f) :: load_log f).

(** [sum] of a list of integer cells. *)
Definition cells_sum (cells : list (option json)) : Z :=
  foldr (λ c acc, cell_int c + acc)%Z 0%Z cells.

(** The file whose count the column of [x] holds: the last file of the
    sorted set that takes the column name of [x]. *)
Definition column_owner (U : gset string) (x : string) : string :=
  default x (last (filter (λ y, col_name y = col_name x) (sorted U))).

(** ** The summary's ranking *)



(** ** Missing cells *)

(** The values pandas holds as the missing value. *)
Definition is_missing (v : json) : Prop := v = JNull ∨ v = JFloat S754_nan.

(** The columns whose cells are taken from the document as they are. *)
Definition document_fields : list string :=
  ["name"; "uc2_verified"; "collection"; "author"; "github_link"; "description";
   "category"; "version"; "createdAt"].

(** The value a setup record holds for a document field. *)
Definition field_value (s : SetupMetadata) (field : string) : option json :=
  if decide (field = "name") then Some (name s)
  else if decide (field = "uc2_verified") then Some (uc2_verified s)
  else if decide (field = "collection") then Some (collection s)
  else if decide (field = "author") then Some (author s)
  else if decide (field = "github_link") then Some (github_link s)
  else if decide (field = "description") then Some (description s)
  else if decide (field = "category") then Some (category s)
  else if decide (field = "version") then Some (version s)
  else if decide (field = "createdAt") then Some (createdAt s)
  else None.

(** A record with a [null] name, as the document [{"name": null}]
    gives. *)
Definition nameless_setup : SetupMetadata :=
  {| filename := "n.json"; name := JNull; uc2_verified := JBool false;
     collection := JStr ""; author := JStr ""; github_link := JStr "";
     description := JStr ""; category := JStr ""; version := JStr "";
     createdAt := JStr ""; total_components := 0;
     component_counts := Some ∅ |}.

(** * Properties *)

(** ** The counter *)

Lemma sum_values_empty : sum_values ∅ = 0.
Proof. apply map_fold_empty. Qed.

Lemma sum_values_insert_fresh (m : gmap string nat) k v :
  m !! k = None → sum_values (<[k:=v]> m) = v + sum_values m.
Proof.
  intros Hk. unfold sum_values.
  rewrite map_fold_insert_L; [done| |done].
  intros; lia.
Qed.

Lemma sum_values_bump (m : gmap string nat) k :
  sum_values (<[k := S (default 0 (m !! k))]> m) = S (sum_values m).
Proof.
  destruct (m !! k) as [n|] eqn:Hk; simpl.
  - rewrite <- (insert_delete_eq m k (S n)).
    rewrite sum_values_insert_fresh by apply lookup_delete_eq.
    rewrite <- (insert_id m k n Hk) at 2.
    rewrite <- (insert_delete_eq m k n).
    rewrite sum_values_insert_fresh by apply lookup_delete_eq. lia.
  - by rewrite sum_values_insert_fresh.
Qed.

Lemma foldl_bump_sum files (m : gmap string nat) :
  sum_values (foldl (λ m x, <[x := S (default 0 (m !! x))]> m) m files)
  = sum_values m + length files.
Proof.
  revert m. induction files as [|f files IH]; intros m; simpl; [lia|].
  rewrite IH, sum_values_bump. lia.
Qed.

Lemma Counter_sum files : sum_values (Counter files) = length files.
Proof. unfold Counter. by rewrite foldl_bump_sum, sum_values_empty. Qed.

Lemma foldl_bump_lookup files (m : gmap string nat) k :
  foldl (λ m x, <[x := S (default 0 (m !! x))]> m) m files !! k
  = if decide (occurrences k files = 0) then m !! k
    else Some (default 0 (m !! k) + occurrences k files).
Proof.
  revert m. induction files as [|f files IH]; intros m; simpl; [done|].
  rewrite IH. unfold occurrences. rewrite filter_cons.
  destruct (decide (f = k)) as [->|Hne]; simpl.
  - rewrite lookup_insert_eq. simpl.
    repeat case_decide; try lia; f_equal; lia.
  - by rewrite lookup_insert_ne.
Qed.

Lemma Counter_lookup files k :
  Counter files !! k
  = if decide (occurrences k files = 0) then None else Some (occurrences k files).
Proof. unfold Counter. rewrite foldl_bump_lookup, lookup_empty. done. Qed.

Lemma occurrences_pos k l : 0 < occurrences k l ↔ k ∈ l.
Proof.
  unfold occurrences. split.
  - intros Hpos. destruct (filter _ l) as [|x l'] eqn:Hf; simpl in Hpos; [lia|].
    assert (x ∈ filter (λ x, x = k) l) as Hin by (rewrite Hf; left).
    apply list_elem_of_filter in Hin as [-> ?]. done.
  - intros Hin.
    assert (k ∈ filter (λ x, x = k) l) as Hin' by (by apply list_elem_of_filter).
    destruct (filter _ l); [by apply elem_of_nil in Hin'|simpl; lia].
Qed.

Section counter.
Variable basename : string → string.

(** The loop keeps the base name of every usable entry, in order, and
    raises exactly when some entry cannot be split. *)
Lemma component_files_spec l :
  component_files basename l
  = if forallb (λ c, negb (unsplittable c)) l
    then inr (basename <$> omap file_of l)
    else inl TypeError.
Proof.
  induction l as [|c l IH]; [done|].
  simpl. destruct c as [| | | | |?|d]; simpl; try exact IH.
  destruct (d !! "file") as [v|]; simpl; [|exact IH].
  destruct v as [| b| n| f| s| l'| d']; simpl;
    try (rewrite IH; simpl; by repeat case_match).
  rewrite IH. case_bool_decide; simpl; case_decide; try done.
  by destruct (forallb _ l).
Qed.

Lemma falsy_entries v : py_truthy v = false → entries_of v = [].
Proof.
  unfold entries_of. destruct v as [| | | | s | l | d]; simpl; try done.
  - intros ?%negb_false_iff%bool_decide_eq_true. by subst.
  - intros ?%negb_false_iff%bool_decide_eq_true. by subst.
  - intros Hd%negb_false_iff%bool_decide_eq_true. by rewrite Hd, elements_empty.
Qed.

(** What the counter returns, whenever it returns. *)
Lemma count_components_by_file_inr v counts :
  count_components_by_file basename v = inr counts →
  counts = Counter (basename <$> omap file_of (entries_of v)).
Proof.
  unfold count_components_by_file.
  destruct (py_truthy v) eqn:Ht; simpl.
  - unfold entries_of. destruct (py_iter v) as [e|items]; simpl; [done|].
    rewrite component_files_spec. destruct (forallb _ items); simpl; [|done].
    by intros [= <-].
  - intros [= <-]. by rewrite falsy_entries.
Qed.

(** When it returns: on everything falsy, and on every iterable none of
    whose entries carries an unsplittable ['file']. *)
Lemma count_components_by_file_returns v :
  is_Some (match count_components_by_file basename v with
           | inr c => Some c | inl _ => None end)
  ↔ py_truthy v = false ∨
    (∃ items, py_iter v = inr items ∧ Forall (λ c, unsplittable c = false) items).
Proof.
  unfold count_components_by_file.
  destruct (py_truthy v) eqn:Ht; simpl; [|split; eauto].
  destruct (py_iter v) as [e|items]; simpl.
  - split; [by intros [? [=]]|]. intros [[=]|(? & [=] & _)].
  - rewrite component_files_spec.
    destruct (forallb _ items) eqn:Hall; simpl.
    + split; [|eauto]. intros _. right. exists items. split; [done|].
      apply Forall_forall. intros c Hc.
      rewrite forallb_forall in Hall.
      apply list_elem_of_In, Hall in Hc. by apply negb_true_iff in Hc.
    + split; [by intros [? [=]]|]. intros [[=]|(items' & [= <-] & Hf)].
      assert (forallb (λ c, negb (unsplittable c)) items = true) as Hc; [|congruence].
      apply forallb_forall. intros c Hc%list_elem_of_In.
      rewrite Forall_forall in Hf. by rewrite (Hf c Hc).
Qed.

Lemma length_omap_le {A B} (f : A → option B) l : length (omap f l) ≤ length l.
Proof. induction l as [|x l IH]; csimpl; [done|]. destruct (f x); simpl; lia. Qed.

Lemma length_omap_eq {A B} (f : A → option B) l :
  length (omap f l) = length l ↔ Forall (λ x, is_Some (f x)) l.
Proof.
  induction l as [|x l IH]; csimpl; [by split|].
  pose proof (length_omap_le f l).
  destruct (f x) eqn:Hx; simpl.
  - rewrite Forall_cons, <- IH.
    split; [intros; split; [by eexists|lia]|intros [_ ?]; lia].
  - split; [lia|]. intros [[? Hs] _]%Forall_cons. congruence.
Qed.
End counter.

(** ** One document through the scanner *)

Lemma py_len_entries v n : py_len v = inr n → length (entries_of v) = n.
Proof.
  unfold entries_of. destruct v as [| | | | s | l | d]; simpl; try done.
  - intros [= <-]. rewrite length_fmap. induction s; simpl; auto.
  - by intros [= <-].
  - intros [= <-]. rewrite length_fmap. apply size_dom.
Qed.

Lemma extract_setup_metadata_dict d file_name :
  extract_setup_metadata (JDict d) file_name
  = inr {| filename := file_name;
           name := default (JStr "") (d !! "name");
           uc2_verified := default (JBool false) (d !! "uc2_verified");
           collection := default (JStr "") (d !! "collection");
           author := default (JStr "") (d !! "author");
           github_link := default (JStr "") (d !! "github_link");
           description := default (JStr "") (d !! "description");
           category := default (JStr "") (d !! "category");
           version := default (JStr "") (d !! "version");
           createdAt := default (JStr "") (d !! "createdAt");
           total_components := 0;
           component_counts := None |}.
Proof. reflexivity. Qed.

Lemma extract_setup_metadata_not_dict data file_name :
  (∀ d, data ≠ JDict d) → extract_setup_metadata data file_name = inl AttributeError.
Proof. intros Hd. destruct data; try done. by destruct (Hd d). Qed.

Section scanner.
Variable basename : string → string.

(** The scanner's record for a document, taken apart. *)
Lemma scan_document_inr data file_name setup counts :
  scan_document basename data file_name = inr (setup, counts) →
  ∃ d m n,
    data = JDict d ∧
    extract_setup_metadata data file_name = inr m ∧
    py_len (uc2_components_of data) = inr n ∧
    count_components_by_file basename (uc2_components_of data) = inr counts ∧
    setup = set_component_counts counts (set_total_components n m).
Proof.
  destruct data as [| | | | | |d]; try done.
  unfold scan_document, uc2_components_of.
  rewrite extract_setup_metadata_dict. simpl.
  destruct (py_len _) as [|n] eqn:Hlen; simpl; [done|].
  destruct (count_components_by_file _ _) as [|c] eqn:Hc; simpl; [done|].
  intros [= <- <-]. eauto 10.
Qed.

(** The scanner completes a record for every mapping whose
    ['uc2_components'] is absent or a list free of unsplittable
    entries. *)
Lemma scan_document_returns d file_name :
  match d !! "uc2_components" with
  | None => True
  | Some (JList l) => Forall (λ c, unsplittable c = false) l
  | Some _ => False
  end →
  ∃ setup counts, scan_document basename (JDict d) file_name = inr (setup, counts).
Proof.
  intros Hd. unfold scan_document. rewrite extract_setup_metadata_dict. simpl.
  destruct (d !! "uc2_components") as [[| | | | |l|]|]; simpl; try done; [|eauto].
  destruct (count_components_by_file_returns basename (JList l)) as [_ Hr].
  destruct Hr as [c Hc]; [right; eauto|].
  destruct (count_components_by_file basename (JList l)); [done|]. simpl. eauto.
Qed.
End scanner.

(** ** One document's counts against its total *)

(** For a document the scanner completes, the counts add up to at most
    [total_components], the number of entries, and to exactly that when
    every entry is usable and only then. *)
Lemma scan_document_sum_le_total
    (basename : string → string) data file_name setup counts :
  scan_document basename data file_name = inr (setup, counts) →
  filename setup = file_name ∧
  component_counts setup = Some counts ∧
  total_components setup = length (entries_of (uc2_components_of data)) ∧
  sum_values counts ≤ total_components setup ∧
  (sum_values counts = total_components setup
   ↔ Forall usable (entries_of (uc2_components_of data))).
Proof.
  intros (d & m & n & -> & Hm & Hlen & Hc & ->)%scan_document_inr.
  apply py_len_entries in Hlen.
  apply count_components_by_file_inr in Hc.
  rewrite extract_setup_metadata_dict in Hm. injection Hm as <-.
  simpl. rewrite Hc, Counter_sum, length_fmap, <- Hlen.
  split_and!; [done|done|done|apply length_omap_le|apply length_omap_eq].
Qed.

(** ** C9 *)

(** C9.  Every count the counter returns is strictly positive: a name is
    a key exactly when some entry contributes it, and its count is the
    number of entries that do. *)
Theorem counts_strictly_positive (basename : string → string) uc2_components counts :
  count_components_by_file basename uc2_components = inr counts →
  (∀ k n, counts !! k = Some n → 0 < n) ∧
  (∀ k, is_Some (counts !! k)
        ↔ ∃ c s, c ∈ entries_of uc2_components ∧ file_of c = Some s ∧ basename s = k) ∧
  (∀ k, default 0 (counts !! k)
        = occurrences k (basename <$> omap file_of (entries_of uc2_components))).
Proof.
  intros ->%count_components_by_file_inr.
  set (files := basename <$> omap file_of (entries_of uc2_components)).
  split_and!.
  - intros k n. rewrite Counter_lookup. case_decide; [done|]. intros [= <-]. lia.
  - intros k. rewrite Counter_lookup.
    transitivity (k ∈ files).
    + rewrite <- occurrences_pos. case_decide; split; try lia.
      * by intros [? [=]].
      * eauto.
    + unfold files. rewrite list_elem_of_fmap. split.
      * intros (s & -> & (c & Hc & Hs)%list_elem_of_omap). eauto.
      * intros (c & s & Hc & Hs & <-). exists s. split; [done|].
        apply list_elem_of_omap. eauto.
  - intros k. rewrite Counter_lookup. by case_decide.
Qed.

Lemma counts_strictly_positive_witness :
  count_components_by_file posixpath_basename
    (JList [component "parts/x.stl"; JNull; component "x.stl"])
    = inr {[ "x.stl" := 2 ]} ∧
  ∀ k n, ({[ "x.stl" := 2 ]} : gmap string nat) !! k = Some n → 0 < n.
Proof.
  assert (count_components_by_file posixpath_basename
    (JList [component "parts/x.stl"; JNull; component "x.stl"])
    = inr {[ "x.stl" := 2 ]}) as H by (vm_compute; reflexivity).
  split; [exact H|].
  exact (proj1 (counts_strictly_positive posixpath_basename _ _ H)).
Defined.

(** ** C2 *)

Lemma rfind_char_None c s : rfind_char c s = None ↔ has_char c s = false.
Proof.
  induction s as [|a s IH]; simpl; [done|].
  destruct (rfind_char c s) eqn:Hr.
  - split; [done|]. intros [_ Hs]%orb_false_iff. apply IH in Hs. done.
  - destruct IH as [IH _]. rewrite IH by done.
    case_decide; case_bool_decide; simpl; try done.
Qed.

(** On a POSIX host only the forward slash separates: a path without one
    is its own base name, backslashes included. *)
Lemma posixpath_basename_no_slash p :
  has_char "/" p = false → posixpath_basename p = p.
Proof.
  intros Hp%rfind_char_None. unfold posixpath_basename. by rewrite Hp.
Qed.

(** C2.  What the counter does with the two paths of the claim where
    [os.path] is [posixpath]: the forward-slash path is reduced to
    ["c.stl"], the backslash path is kept whole, so the identifier is
    not ["c.stl"]. *)
Theorem posix_basename_keeps_backslash_path :
  count_components_by_file posixpath_basename (JList [component "a/b/c.stl"])
    = inr {[ "c.stl" := 1 ]} ∧
  count_components_by_file posixpath_basename (JList [component "a\b\c.stl"])
    = inr {[ "a\b\c.stl" := 1 ]} ∧
  posixpath_basename "a\b\c.stl" ≠ "c.stl".
Proof. split_and!; [by vm_compute..|]. vm_compute. discriminate. Qed.

(** ** C3 *)

Lemma replace_from_char a b s :
  replace_from (String a "") (String b "") 0 s
  = string_map (λ c, if decide (c = a) then b else c) s.
Proof.
  induction s as [|c s IH]; [done|].
  cbn [replace_from string_map String.prefix String.length].
  destruct (ascii_dec a c) as [->|Hne].
  - rewrite decide_True by done. destruct s; rewrite <- IH; reflexivity.
  - rewrite decide_False by done. by rewrite IH.
Qed.

Lemma string_map_compose f g s : string_map f (string_map g s) = string_map (f ∘ g) s.
Proof. induction s; simpl; by f_equal. Qed.

Lemma string_map_ext f g s : (∀ c, f c = g c) → string_map f s = string_map g s.
Proof. intros Hfg. induction s; simpl; by f_equal. Qed.

Lemma col_name_string_map component_file :
  col_name component_file = "component_" +:+ string_map sanitise component_file.
Proof.
  unfold col_name, str_replace. rewrite !replace_from_char, !string_map_compose.
  f_equal. apply string_map_ext. intros c. unfold sanitise. simpl.
  repeat case_decide; subst; try done; intuition congruence.
Qed.

Lemma sanitise_eq a b : sanitise a = sanitise b ↔ a = b ∨ (underscored a ∧ underscored b).
Proof.
  unfold sanitise, underscored.
  repeat case_decide; split; intros; subst; intuition congruence.
Qed.

Lemma string_map_sanitise_eq x y :
  string_map sanitise x = string_map sanitise y ↔ alike x y.
Proof.
  revert y. induction x as [|a x IH]; intros [|b y]; simpl; try done.
  rewrite <- IH, <- sanitise_eq. split; [by intros [= -> ->]|by intros [-> ->]].
Qed.

(** C3.  Two component files share a column exactly when they are alike:
    of one length, and different only at positions where each carries a
    period, a space, a hyphen or an underscore.  Everywhere else the
    naming keeps distinct files in distinct columns. *)
Theorem col_name_eq_iff_alike x y : col_name x = col_name y ↔ alike x y.
Proof.
  rewrite !col_name_string_map, <- string_map_sanitise_eq.
  split; [apply (inj _)|by intros ->].
Qed.

Lemma col_name_not_injective_on_universe :
  ¬ (∀ folder setups (universe : gset string),
       (analyze_setups_folder posixpath_basename "./setups" folder).2
         = inr (setups, universe) →
       ∀ x y, x ∈ universe → y ∈ universe → x ≠ y → col_name x ≠ col_name y).
Proof.
  intros H.
  assert ((analyze_setups_folder posixpath_basename "./setups" (Some clashing_folder)).2
          = inr ([setup_with "s.json" 3
                    ({[ "lens-holder.stl" := 1; "lens_holder.stl" := 2 ]} : gmap string nat)],
                 ({[ "lens-holder.stl"; "lens_holder.stl" ]} : gset string))) as Hrun
    by (vm_compute; reflexivity).
  apply (H _ _ _ Hrun "lens-holder.stl" "lens_holder.stl");
    [set_solver|set_solver|discriminate|reflexivity].
Qed.

(** ** C4 *)

(** A value under ['uc2_components'] that is not a list is measured all
    the same: here a string of three characters. *)
Lemma total_components_of_non_list_not_zero :
  ¬ (∀ (basename : string → string) d file_name setup counts,
       scan_document basename (JDict d) file_name = inr (setup, counts) →
       total_components setup
       = match d !! "uc2_components" with
         | Some (JList l) => length l
         | _ => 0
         end).
Proof.
  intros H.
  assert (scan_document posixpath_basename
            (JDict {[ "uc2_components" := JStr "abc" ]}) "s.json"
          = inr (setup_with "s.json" 3 ∅, ∅)) as Hrun by (vm_compute; reflexivity).
  apply H in Hrun. vm_compute in Hrun. discriminate.
Qed.

(** C4.  For a document the scanner completes, [total_components] is
    [len] of what [data.get('uc2_components', [])] returns: the length of
    the list when the value is a list, 0 when the key is absent, and for
    a string or a mapping its own length rather than 0. *)
Theorem total_components_is_len
    (basename : string → string) d file_name setup counts :
  scan_document basename (JDict d) file_name = inr (setup, counts) →
  match d !! "uc2_components" with
  | None => total_components setup = 0
  | Some (JList l) => total_components setup = length l
  | Some (JStr s) => total_components setup = String.length s
  | Some (JDict m) => total_components setup = size m
  | Some _ => True
  end.
Proof.
  intros (d' & m & n & [= <-] & Hm & Hlen & _ & ->)%scan_document_inr.
  unfold uc2_components_of in Hlen. simpl in *.
  destruct (d !! "uc2_components") as [[| | | | | |]|]; simpl in *; congruence.
Qed.

Lemma total_components_is_len_witness :
  scan_document posixpath_basename example_document "s.json"
    = inr (setup_with "s.json" 3 ({[ "x.stl" := 2 ]} : gmap string nat),
           ({[ "x.stl" := 2 ]} : gmap string nat)) ∧
  total_components (setup_with "s.json" 3 ({[ "x.stl" := 2 ]} : gmap string nat)) = 3.
Proof.
  assert (scan_document posixpath_basename example_document "s.json"
    = inr (setup_with "s.json" 3 ({[ "x.stl" := 2 ]} : gmap string nat),
           ({[ "x.stl" := 2 ]} : gmap string nat))) as H
    by (vm_compute; reflexivity).
  split; [exact H|].
  exact (total_components_is_len posixpath_basename _ _ _ _ H).
Defined.

(** ** C5 *)

(** A field present with the value [null] is copied, not defaulted. *)
Lemma extract_setup_metadata_keeps_null :
  ¬ (∀ d file_name, ∃ r,
       extract_setup_metadata (JDict d) file_name = inr r ∧ well_typed r).
Proof.
  intros H. destruct (H {[ "name" := JNull ]} "s.json") as (r & Hr & Hty & _).
  vm_compute in Hr. injection Hr as <-. exact Hty.
Qed.

Lemma default_is_str (d : gmap string json) key :
  (∀ v, d !! key = Some v → is_str v) → is_str (default (JStr "") (d !! key)).
Proof. intros H. destruct (d !! key); simpl; auto. Qed.

(** C5.  For every document that is a mapping the extractor returns a
    record; [filename] is the given name, [total_components] is 0, and
    every other fixed field is the document's value under its key when
    the key is present and the default (empty string, [false]) when it is
    absent.  The record is non-null and well typed throughout whenever
    the values the document holds under the fixed keys are. *)
Theorem extract_setup_metadata_defaults d file_name :
  ∃ r, extract_setup_metadata (JDict d) file_name = inr r ∧
    filename r = file_name ∧
    total_components r = 0 ∧
    name r = default (JStr "") (d !! "name") ∧
    uc2_verified r = default (JBool false) (d !! "uc2_verified") ∧
    collection r = default (JStr "") (d !! "collection") ∧
    author r = default (JStr "") (d !! "author") ∧
    github_link r = default (JStr "") (d !! "github_link") ∧
    description r = default (JStr "") (d !! "description") ∧
    category r = default (JStr "") (d !! "category") ∧
    version r = default (JStr "") (d !! "version") ∧
    createdAt r = default (JStr "") (d !! "createdAt") ∧
    (well_typed_document d → well_typed r).
Proof.
  eexists. split; [apply extract_setup_metadata_dict|].
  simpl. split_and!; try done.
  intros [Hs Hb]. unfold well_typed; simpl.
  split_and!;
    try (apply default_is_str; intros v; apply Hs; unfold string_fields; set_solver).
  destruct (d !! "uc2_verified") as [v|] eqn:Hv; simpl; [by apply Hb|done].
Qed.

Lemma extract_setup_metadata_defaults_witness :
  well_typed_document {[ "name" := JStr "Lightsheet"; "uc2_verified" := JBool true ]} ∧
  ∃ r, extract_setup_metadata
         (JDict {[ "name" := JStr "Lightsheet"; "uc2_verified" := JBool true ]})
         "lightsheet.json" = inr r ∧
       well_typed r.
Proof.
  assert (well_typed_document
            {[ "name" := JStr "Lightsheet"; "uc2_verified" := JBool true ]}) as H.
  { split.
    - intros key v Hk. unfold string_fields in Hk.
      repeat (apply elem_of_cons in Hk as [->|Hk]);
        try (by apply elem_of_nil in Hk);
        vm_compute; intros [= <-]; exact I.
    - intros v. vm_compute. intros [= <-]. exact I. }
  split; [exact H|].
  destruct (extract_setup_metadata_defaults
              {[ "name" := JStr "Lightsheet"; "uc2_verified" := JBool true ]}
              "lightsheet.json") as (r & Hr & Hrest).
  exists r. split; [exact Hr|].
  apply Hrest, H.
Defined.

(** ** Traces *)

Lemma bind_unfold {A B} (m : M A) (k : A → M B) :
  bind m k = match m.2 with
             | inl e => (m.1, inl e)
             | inr a => (m.1 ++ (k a).1, (k a).2)
             end.
Proof. unfold bind. destruct m as [tr [e|a]]; simpl; [done|]. by destruct (k a). Qed.

Lemma written_tables_app tr1 tr2 :
  written_tables (tr1 ++ tr2) = written_tables tr1 ++ written_tables tr2.
Proof. apply omap_app. Qed.

Lemma written_tables_bind {A B} (m : M A) (k : A → M B) :
  written_tables (bind m k).1
  = written_tables m.1 ++ match m.2 with
                          | inr a => written_tables (k a).1
                          | inl _ => []
                          end.
Proof.
  rewrite bind_unfold. destruct m.2; simpl; [by rewrite app_nil_r|].
  apply written_tables_app.
Qed.

Lemma written_tables_logs tr : Forall is_log tr → written_tables tr = [].
Proof.
  induction 1 as [|ev tr Hev _ IH]; [done|].
  destruct ev; try done; exact IH.
Qed.

Lemma written_tables_prints tr : Forall is_print tr → written_tables tr = [].
Proof.
  induction 1 as [|ev tr Hev _ IH]; [done|].
  destruct ev; try done; exact IH.
Qed.

Lemma print_all_unfold lines : print_all lines = (Print <$> lines, inr tt).
Proof.
  induction lines as [|l lines IH]; [done|].
  simpl. rewrite bind_unfold, IH. done.
Qed.

Lemma Forall_is_print_fmap lines : Forall is_print (Print <$> lines).
Proof. induction lines; constructor; done. Qed.

Lemma written_tables_info msg tr :
  written_tables (LogInfo msg :: tr) = written_tables tr.
Proof. reflexivity. Qed.

Lemma written_tables_print_lines lines : written_tables (Print <$> lines) = [].
Proof. apply written_tables_prints, Forall_is_print_fmap. Qed.

Section runs.
Variable basename : string → string.
Variable summary_statistics : DataFrame → list string * option exn.

(** One turn of the scanner's loop: some log records, then the rest of
    the loop, unless the document raises. *)
Lemma scan_files_step f rest acc U :
  ∃ tr, Forall is_log tr ∧
    scan_files basename (f :: rest) acc U
    = match document_of f with
      | None =>
          (tr ++ (scan_files basename rest acc U).1,
           (scan_files basename rest acc U).2)
      | Some data =>
          match scan_document basename data (jf_name f) with
          | inl e => (tr, inl e)
          | inr (m, c) =>
              (tr ++ (scan_files basename rest (acc ++ [m]) (U ∪ dom c)).1,
               (scan_files basename rest (acc ++ [m]) (U ∪ dom c)).2)
          end
      end.
Proof.
  cbn [scan_files]. unfold load_json_file, document_of.
  destruct (jf_load f) as [data|e|e].
  - exists [LogInfo ("Processing: " +:+ jf_name f)]. split; [by repeat constructor|].
    rewrite !bind_unfold. cbn [logger_info emit ret fst snd app].
    destruct data; try reflexivity;
      rewrite bind_unfold; unfold lift; cbn [fst snd];
      destruct (scan_document _ _ _) as [?|[? ?]]; reflexivity.
  - exists [LogInfo ("Processing: " +:+ jf_name f);
            LogError ("Invalid JSON in " +:+ jf_path f +:+ ": " +:+ e)].
    split; [by repeat constructor|].
    rewrite !bind_unfold. reflexivity.
  - exists [LogInfo ("Processing: " +:+ jf_name f);
            LogError ("Error reading " +:+ jf_path f +:+ ": " +:+ e)].
    split; [by repeat constructor|].
    rewrite !bind_unfold. reflexivity.
Qed.

Lemma scan_files_logs files acc U :
  Forall is_log (scan_files basename files acc U).1.
Proof.
  revert acc U. induction files as [|f files IH]; intros acc U; [constructor|].
  destruct (scan_files_step f files acc U) as (tr & Htr & ->).
  destruct (document_of f) as [data|]; [|apply Forall_app; split; [done|apply IH]].
  destruct (scan_document basename data (jf_name f)) as [e|[m c]]; [done|].
  apply Forall_app. split; [done|apply IH].
Qed.

Lemma analyze_setups_folder_logs dir folder :
  Forall is_log (analyze_setups_folder basename dir folder).1.
Proof.
  unfold analyze_setups_folder. destruct folder as [files|].
  - rewrite !bind_unfold. simpl.
    pose proof (scan_files_logs files [] ∅) as Hs.
    destruct (scan_files basename files [] ∅) as [tr [e|res]]; simpl in *.
    + by constructor.
    + constructor; [done|]. rewrite Forall_app. split; [done|].
      repeat constructor.
  - repeat constructor.
Qed.

(** A file that gives no document leaves the scan as it was. *)
Lemma scan_files_unparsed files acc U :
  Forall (λ f, document_of f = None) files →
  (scan_files basename files acc U).2 = inr (acc, U).
Proof.
  induction 1 as [|f files Hf _ IH]; [done|].
  destruct (scan_files_step f files acc U) as (tr & _ & ->).
  rewrite Hf. exact IH.
Qed.

(** The run, by the outcome of the scan. *)
Lemma main_unfold folder :
  main basename summary_statistics folder
  = let a := analyze_setups_folder basename "./setups" folder in
    match a.2 with
    | inl e => (LogInfo "Starting UC2 setup analysis..." :: a.1, inl e)
    | inr ([], _) =>
        (LogInfo "Starting UC2 setup analysis..." :: a.1 ++
           [LogError "No valid setup files found. Exiting."], inr tt)
    | inr (s :: l, U) =>
        let c := create_csv_database summary_statistics (s :: l) U
                   "setups_analysis.csv" in
        match c.2 with
        | inl e => (LogInfo "Starting UC2 setup analysis..." :: a.1 ++ c.1, inl e)
        | inr _ =>
            (LogInfo "Starting UC2 setup analysis..." :: a.1 ++ c.1 ++
               [LogInfo "Analysis complete!"], inr tt)
        end
    end.
Proof.
  unfold main. rewrite !bind_unfold. cbn [logger_info emit fst snd app].
  destruct (analyze_setups_folder _ _ _) as [tr [e|[[|s l] U]]];
    cbn [fst snd logger_error emit]; try done.
  rewrite bind_unfold.
  destruct (create_csv_database _ _ _ _) as [trc [e|[]]]; cbn [fst snd]; done.
Qed.
End runs.

(** ** C7 *)

(** C7.  Given an empty list the table builder logs one error and
    returns: nothing is written, nothing printed, nothing raised.  A
    missing folder gives the empty list and the empty set after one
    logged error; and a run over a folder that yields no document,
    missing or not, ends normally with an error logged and with log
    records only in its trace. *)
Theorem empty_corpus_logs_error_and_writes_nothing
    (basename : string → string)
    (summary_statistics : DataFrame → list string * option exn)
    (folder : option (list json_file)) :
  no_document folder →
  (∀ universe output_file,
     create_csv_database summary_statistics [] universe output_file
     = ([LogError "No setup data to process"], inr tt)) ∧
  (∀ dir, analyze_setups_folder basename dir None
          = ([LogError ("Setups folder not found: " +:+ dir)], inr ([], ∅))) ∧
  (∀ dir, (analyze_setups_folder basename dir folder).2 = inr ([], ∅)) ∧
  (main basename summary_statistics folder).2 = inr tt ∧
  Forall is_log (main basename summary_statistics folder).1 ∧
  LogError "No valid setup files found. Exiting."
    ∈ (main basename summary_statistics folder).1.
Proof.
  intros Hno.
  assert (∀ dir, (analyze_setups_folder basename dir folder).2 = inr ([], ∅)) as Ha.
  { intros dir. destruct folder as [files|]; [|done].
    unfold analyze_setups_folder. rewrite !bind_unfold. simpl.
    by rewrite (scan_files_unparsed basename files [] ∅ Hno). }
  split_and!; try done.
  - rewrite main_unfold. simpl. by rewrite Ha.
  - rewrite main_unfold. simpl. rewrite Ha. simpl.
    constructor; [done|]. apply Forall_app. split.
    + apply analyze_setups_folder_logs.
    + by repeat constructor.
  - rewrite main_unfold. simpl. rewrite Ha. simpl.
    right. apply elem_of_app. right. left.
Qed.

Lemma empty_corpus_logs_error_and_writes_nothing_witness :
  no_document (Some [ {| jf_name := "broken.json"; jf_path := "setups/broken.json";
                         jf_load := JSONDecodeError "Expecting value" |} ]) ∧
  (main posixpath_basename (λ _, ([], None))
     (Some [ {| jf_name := "broken.json"; jf_path := "setups/broken.json";
                jf_load := JSONDecodeError "Expecting value" |} ])).2 = inr tt.
Proof.
  assert (no_document
    (Some [ {| jf_name := "broken.json"; jf_path := "setups/broken.json";
               jf_load := JSONDecodeError "Expecting value" |} ])) as H.
  { simpl. constructor; [|constructor]. reflexivity. }
  split; [exact H|].
  exact (proj1 (proj2 (proj2 (proj2
    (empty_corpus_logs_error_and_writes_nothing posixpath_basename
       (λ _, ([], None)) _ H))))).
Defined.

(** ** The columns of the table *)

Lemma dict_keys_setitem k v d :
  dict_keys (dict_setitem k v d) = add_label (dict_keys d) k.
Proof.
  unfold add_label, dict_keys. induction d as [|[k' v'] d IH]; [done|].
  cbn [dict_setitem fmap list_fmap fst].
  destruct (decide (k = k')) as [->|Hne].
  - rewrite decide_True; [done|left].
  - cbn [fmap list_fmap fst]. rewrite IH.
    destruct (decide (k ∈ d.*1)) as [Hin|Hnin].
    + rewrite decide_True; [done|by right].
    + rewrite decide_False; [done|]. by intros [?|?]%elem_of_cons.
Qed.

Lemma dict_lookup_setitem k k' v d :
  dict_lookup k (dict_setitem k' v d)
  = if decide (k = k') then Some v else dict_lookup k d.
Proof.
  induction d as [|[k0 v0] d IH]; simpl.
  - by repeat case_decide.
  - destruct (decide (k' = k0)) as [->|Hne]; simpl.
    + by repeat case_decide.
    + rewrite IH. repeat case_decide; congruence.
Qed.

Lemma foldl_add_label_leaders base ids :
  foldl add_label base (col_name <$> ids)
  = base ++ (col_name <$> column_leaders base ids).
Proof.
  revert base. induction ids as [|x ids IH]; intros base; simpl.
  - by rewrite app_nil_r.
  - unfold add_label at 2. case_decide; [apply IH|].
    rewrite IH. simpl. by rewrite <- app_assoc.
Qed.

Lemma col_name_not_metadata x : col_name x ∉ metadata_fields.
Proof.
  rewrite col_name_string_map. unfold metadata_fields.
  rewrite !elem_of_cons, elem_of_nil. intros H.
  repeat destruct H as [H|H]; try done; vm_compute in H; discriminate.
Qed.

Lemma column_leaders_base base seen ids :
  (∀ x, col_name x ∉ base) →
  column_leaders (base ++ seen) ids = column_leaders seen ids.
Proof.
  intros Hb. revert seen. induction ids as [|x ids IH]; intros seen; simpl; [done|].
  destruct (decide (col_name x ∈ seen)) as [Hin|Hnin].
  - rewrite decide_True; [apply IH|]. apply elem_of_app. by right.
  - rewrite decide_False.
    + f_equal. rewrite <- app_assoc. apply IH.
    + intros [?|?]%elem_of_app; [by eapply Hb|done].
Qed.

Lemma add_label_NoDup cols k : NoDup cols → NoDup (add_label cols k).
Proof.
  intros Hn. unfold add_label. case_decide; [done|].
  apply NoDup_app. split_and!; [done| |apply NoDup_singleton].
  intros x Hx ->%list_elem_of_singleton. done.
Qed.

Lemma foldl_add_label_NoDup cols l : NoDup cols → NoDup (foldl add_label cols l).
Proof.
  revert cols. induction l as [|k l IH]; intros cols Hn; simpl; [done|].
  by apply IH, add_label_NoDup.
Qed.

Lemma foldl_add_label_known cols l :
  (∀ k, k ∈ l → k ∈ cols) → foldl add_label cols l = cols.
Proof.
  induction l as [|k l IH]; intros Hl; simpl; [done|].
  unfold add_label at 2. rewrite decide_True by (apply Hl; left).
  apply IH. intros k' Hk'. apply Hl. by right.
Qed.

Lemma foldl_add_label_fresh l : NoDup l → foldl add_label [] l = l.
Proof.
  enough (∀ cols, NoDup (cols ++ l) → foldl add_label cols l = cols ++ l) as H
    by (intros Hn; by apply (H [])).
  induction l as [|k l IH]; intros cols Hn; simpl.
  - by rewrite app_nil_r.
  - unfold add_label at 2. rewrite decide_False.
    + rewrite IH; rewrite <- app_assoc; done.
    + apply NoDup_app in Hn as (_ & Hd & _). intros Hk. apply (Hd k Hk). left.
Qed.

(** ** The table *)

Lemma dict_keys_add_columns counts U row :
  dict_keys (add_component_columns counts U row)
  = foldl add_label (dict_keys row) (col_name <$> sorted U).
Proof.
  unfold add_component_columns. generalize (sorted U). intros ids.
  revert row. induction ids as [|x ids IH]; intros row; simpl; [done|].
  by rewrite IH, dict_keys_setitem.
Qed.

Lemma dict_keys_filled_row U s : dict_keys (filled_row U s) = table_columns U.
Proof.
  unfold filled_row. rewrite dict_keys_add_columns, foldl_add_label_leaders.
  unfold table_columns. do 2 f_equal.
  rewrite <- (app_nil_r (dict_keys _)).
  apply column_leaders_base. intros x. apply col_name_not_metadata.
Qed.

Lemma dict_lookup_add_columns counts U row k :
  (∀ x, col_name x ≠ k) →
  dict_lookup k (add_component_columns counts U row) = dict_lookup k row.
Proof.
  intros Hk. unfold add_component_columns. generalize (sorted U). intros ids.
  revert row. induction ids as [|x ids IH]; intros row; simpl; [done|].
  rewrite IH, dict_lookup_setitem. rewrite decide_False; [done|].
  intros ->. by apply (Hk x).
Qed.

Lemma table_columns_NoDup U : NoDup (table_columns U).
Proof.
  rewrite <- (dict_keys_filled_row U (setup_with "" 0 ∅)).
  unfold filled_row. rewrite dict_keys_add_columns.
  apply foldl_add_label_NoDup. compute_done.
Qed.

Lemma str_key_cells_of U s : str_key 0 (cells_of U s) = filename s.
Proof.
  unfold cells_of, str_key, table_columns. simpl.
  unfold filled_row. rewrite dict_lookup_add_columns; [done|].
  intros x Hx. apply (col_name_not_metadata x). rewrite Hx. left.
Qed.

Lemma rows_of_spec setups U :
  Forall has_counts setups →
  rows_of setups U = inr (filled_row U <$> setups).
Proof.
  induction 1 as [|s setups [c Hc] _ IH]; [done|].
  simpl. unfold row_of, filled_row. rewrite Hc, IH. done.
Qed.

Lemma rows_of_missing setups U :
  ¬ Forall has_counts setups → rows_of setups U = inl KeyError.
Proof.
  induction setups as [|s setups IH]; intros Hn; [by destruct Hn|].
  simpl. unfold row_of.
  destruct (component_counts s) as [c|] eqn:Hc; simpl; [|done].
  rewrite IH; [done|]. intros Hf. apply Hn. constructor; [|done].
  by exists c.
Qed.

Lemma DataFrame_columns_same_keys rows K :
  NoDup K → rows ≠ [] → Forall (λ r, dict_keys r = K) rows →
  columns (DataFrame_of_rows rows) = K.
Proof.
  intros Hn Hne Hk. destruct rows as [|r rows]; [done|].
  apply Forall_cons in Hk as [Hr Hk]. simpl. rewrite Hr.
  rewrite (foldl_add_label_fresh K Hn).
  clear Hne Hr. induction Hk as [|r' rows Hr' _ IH]; [done|].
  simpl. rewrite Hr', (foldl_add_label_known K K); done.
Qed.

(** What lines 161 to 192 build for a non-empty corpus. *)
Lemma build_table_spec setups U :
  setups ≠ [] → Forall has_counts setups →
  build_table setups U = inr (the_table setups U).
Proof.
  intros Hne Hc. unfold build_table. rewrite rows_of_spec by done. simpl.
  assert (columns (DataFrame_of_rows (filled_row U <$> setups)) = table_columns U) as Hcols.
  { apply DataFrame_columns_same_keys.
    - apply table_columns_NoDup.
    - by destruct setups.
    - apply Forall_fmap, Forall_forall. intros s _. apply dict_keys_filled_row. }
  unfold sort_values, column_index. rewrite Hcols.
  unfold the_table. simpl. do 2 f_equal.
  unfold DataFrame_of_rows in *. simpl in *. rewrite Hcols.
  rewrite <- list_fmap_compose. done.
Qed.

(** Sorting by a key that no two rows share has one outcome. *)
Lemma sorted_by_key_unique {A} (key : A → string) (l1 l2 : list A) :
  Sorted (λ a b, String.le (key a) (key b)) l1 →
  Sorted (λ a b, String.le (key a) (key b)) l2 →
  l1 ≡ₚ l2 → NoDup (key <$> l1) → l1 = l2.
Proof.
  intros Hs1 Hs2 Hp Hn.
  assert (key <$> l1 = key <$> l2) as Hkeys.
  { apply (Sorted_unique String.le).
    - eapply (Sorted_fmap key _ String.le); [|exact Hs1]. done.
    - eapply (Sorted_fmap key _ String.le); [|exact Hs2]. done.
    - by rewrite Hp. }
  clear Hs1 Hs2. revert l2 Hp Hkeys.
  induction l1 as [|x l1 IH]; intros [|y l2] Hp Hkeys; try done.
  injection Hkeys as Hxy Hkeys.
  apply NoDup_cons in Hn as [Hx Hn].
  assert (x = y) as <-.
  { assert (y ∈ x :: l1) as [->|Hy]%elem_of_cons by (rewrite Hp; left); [done|].
    destruct Hx. rewrite Hxy. by apply list_elem_of_fmap_2. }
  f_equal. apply IH; [done| |done]. by apply (inj (x ::.)).
Qed.

Lemma key_le_cells_total : Total (key_le 0).
Proof. intros r1 r2. unfold key_le. apply (total String.le). Qed.

Lemma key_le_cells_trans : Transitive (key_le 0).
Proof. intros r1 r2 r3. unfold key_le. apply transitivity. Qed.

(** The table does not depend on the order in which the setups come, as
    long as their file names differ. *)
Lemma the_table_permutation setups1 setups2 U :
  setups1 ≡ₚ setups2 → NoDup (filename <$> setups1) →
  the_table setups1 U = the_table setups2 U.
Proof.
  intros Hp Hn. unfold the_table. f_equal.
  pose proof key_le_cells_total. pose proof key_le_cells_trans.
  apply (sorted_by_key_unique (str_key 0)).
  - apply (Sorted_merge_sort (key_le 0)).
  - apply (Sorted_merge_sort (key_le 0)).
  - by rewrite !merge_sort_Permutation, Hp.
  - rewrite merge_sort_Permutation, <- list_fmap_compose.
    erewrite list_fmap_ext; [exact Hn|]. intros ? s _. simpl. apply str_key_cells_of.
Qed.

(** The rows of the table are the rows of the setups, arranged by
    ascending file name. *)
Lemma the_table_rows setups U :
  ∃ ordered, ordered ≡ₚ setups ∧
    Sorted String.le (filename <$> ordered) ∧
    values (the_table setups U) = cells_of U <$> ordered.
Proof.
  pose proof key_le_cells_total.
  pose proof (merge_sort_Permutation (key_le 0) (cells_of U <$> setups)) as Hp.
  apply Permutation_map_inv in Hp as (ordered & Hv & Hp).
  exists ordered. split_and!; [done| |exact Hv].
  pose proof (Sorted_merge_sort (key_le 0) (cells_of U <$> setups)) as Hs.
  change (merge_sort _ _) with (values (the_table setups U)) in Hs.
  simpl in Hv. unfold the_table in Hs. simpl in Hs. rewrite Hv in Hs.
  apply (Sorted_fmap (str_key 0) (key_le 0) String.le) in Hs; [|done].
  rewrite <- list_fmap_compose in Hs.
  erewrite list_fmap_ext in Hs; [exact Hs|].
  intros ? s _. simpl. apply str_key_cells_of.
Qed.

(** ** The scan as a whole *)

Section corpus.
Variable basename : string → string.
Variable summary_statistics : DataFrame → list string * option exn.

Lemma scan_files_result files acc U :
  (scan_files basename files acc U).2
  = (rs <-? scan_docs basename files ;; inr (acc ++ rs.*1, U ∪ ⋃ (dom <$> rs.*2))).
Proof.
  revert acc U. induction files as [|f files IH]; intros acc U.
  - simpl. by rewrite app_nil_r, (right_id_L ∅ (∪)).
  - destruct (scan_files_step basename f files acc U) as (tr & _ & ->).
    cbn [scan_docs].
    destruct (document_of f) as [data|]; cbn [fst snd]; [|apply IH].
    destruct (scan_document basename data (jf_name f)) as [e|[m c]]; [done|].
    cbn [rbind snd]. rewrite IH.
    destruct (scan_docs basename files) as [e|rs]; [done|]. simpl.
    rewrite <- app_assoc, (assoc_L (∪)). done.
Qed.

Lemma analyze_setups_folder_result dir files :
  (analyze_setups_folder basename dir (Some files)).2
  = (rs <-? scan_docs basename files ;; inr (rs.*1, ⋃ (dom <$> rs.*2))).
Proof.
  unfold analyze_setups_folder. rewrite !bind_unfold. cbn [logger_info emit fst snd].
  rewrite scan_files_result.
  destruct (scan_docs basename files) as [e|rs]; [done|]. simpl.
  by rewrite (left_id_L ∅ (∪)).
Qed.

(** Every record of the scan carries its counts and the name of its
    file. *)
Lemma scan_docs_records files rs :
  scan_docs basename files = inr rs →
  Forall (λ r, component_counts r.1 = Some r.2) rs ∧
  filename <$> rs.*1 `sublist_of` jf_name <$> files.
Proof.
  revert rs. induction files as [|f files IH]; intros rs; simpl.
  - intros [= <-]. split; [constructor|done].
  - destruct (document_of f) as [data|];
      [|intros [? ?]%IH; split; [done|by apply sublist_cons]].
    destruct (scan_document basename data (jf_name f)) as [e|[m c]] eqn:Hm; [done|].
    simpl. destruct (scan_docs basename files) as [e|rs']; [done|]. simpl.
    intros [= <-]. destruct (IH rs' eq_refl) as [Hc Hs].
    apply scan_document_inr in Hm as (d & m0 & n & -> & Hm0 & _ & _ & ->).
    rewrite extract_setup_metadata_dict in Hm0. injection Hm0 as <-.
    split; [by constructor|]. simpl. by apply sublist_skip.
Qed.

(** The scan of a rearranged folder: the same records, rearranged, or an
    exception both times. *)
Lemma scan_docs_permutation files1 files2 :
  files1 ≡ₚ files2 →
  match scan_docs basename files1, scan_docs basename files2 with
  | inr rs1, inr rs2 => rs1 ≡ₚ rs2
  | inl _, inl _ => True
  | _, _ => False
  end.
Proof.
  induction 1 as [|f l1 l2 _ IH|f g l|l1 l2 l3 _ IH1 _ IH2].
  - simpl. constructor.
  - simpl. destruct (document_of f) as [data|]; [|exact IH].
    destruct (scan_document basename data (jf_name f)); simpl;
      [by repeat case_match|].
    destruct (scan_docs basename l1), (scan_docs basename l2); simpl; try done. by constructor.
  - simpl.
    destruct (document_of f) as [df|], (document_of g) as [dg|]; simpl;
      repeat (match goal with
              | |- context [scan_document basename ?d ?n] =>
                  destruct (scan_document basename d n); simpl
              end);
      destruct (scan_docs basename l); simpl; try done.
    apply perm_swap.
  - destruct (scan_docs basename l1), (scan_docs basename l2), (scan_docs basename l3); try done.
    by etrans.
Qed.

Lemma written_tables_create setups U output_file :
  setups ≠ [] → Forall has_counts setups →
  written_tables (create_csv_database summary_statistics setups U output_file).1
  = [(output_file, the_table setups U)].
Proof.
  intros Hne Hc. unfold create_csv_database.
  destruct setups as [|s l]; [done|].
  rewrite written_tables_bind, build_table_spec by done. unfold lift. cbn [fst snd].
  rewrite !written_tables_bind. cbn [emit logger_info print fst snd].
  unfold run_summary_statistics. rewrite !written_tables_bind, !print_all_unfold.
  cbn [fst snd]. rewrite !written_tables_print_lines.
  destruct (summary_statistics _).2; reflexivity.
Qed.

(** What a run writes: nothing when the scan raises or finds no
    document, and otherwise the one table of the scanned corpus. *)
Lemma written_tables_main files :
  written_tables (main basename summary_statistics (Some files)).1
  = match scan_docs basename files with
    | inr (r :: rs) =>
        [("setups_analysis.csv",
          the_table (r :: rs).*1 (⋃ (dom <$> (r :: rs).*2)))]
    | _ => []
    end.
Proof.
  rewrite main_unfold. cbn zeta.
  pose proof (analyze_setups_folder_logs basename "./setups" (Some files)) as Hlogs.
  apply written_tables_logs in Hlogs.
  pose proof (analyze_setups_folder_result "./setups" files) as Hres.
  destruct (analyze_setups_folder basename "./setups" (Some files)) as [tr ra].
  cbn [fst snd] in *. subst ra.
  destruct (scan_docs basename files) as [e|[|r rs]] eqn:Hscan;
    cbn -[create_csv_database the_table written_tables].
  - by rewrite written_tables_info.
  - by rewrite written_tables_info, written_tables_app, Hlogs.
  - assert (written_tables
              (create_csv_database summary_statistics (r.1 :: rs.*1)
                 (dom r.2 ∪ ⋃ (dom <$> rs.*2)) "setups_analysis.csv").1
            = [("setups_analysis.csv",
                the_table (r.1 :: rs.*1) (dom r.2 ∪ ⋃ (dom <$> rs.*2)))]) as Hw.
    { apply written_tables_create; [done|].
      apply scan_docs_records in Hscan as [Hc _].
      change (r.1 :: rs.*1) with ((r :: rs).*1).
      apply Forall_fmap. eapply Forall_impl; [exact Hc|].
      intros [m c] Hm. by exists c. }
    destruct (create_csv_database _ _ _ _).2;
      cbn -[create_csv_database the_table written_tables];
      rewrite written_tables_info, ?written_tables_app, Hlogs, Hw; done.
Qed.
(** Every record of the scan is the scanner's record of a document of
    the folder. *)
Lemma scan_docs_origin files rs :
  scan_docs basename files = inr rs →
  Forall (λ r, ∃ f data, f ∈ files ∧ document_of f = Some data ∧
                 scan_document basename data (jf_name f) = inr r) rs.
Proof.
  revert rs. induction files as [|f files IH]; intros rs; simpl.
  - intros [= <-]. constructor.
  - destruct (document_of f) as [data|] eqn:Hdoc.
    + destruct (scan_document basename data (jf_name f)) as [e|r] eqn:Hr; [done|].
      simpl. destruct (scan_docs basename files) as [e|rs']; [done|]. simpl.
      intros [= <-]. constructor.
      * exists f, data. split_and!; [left|done|done].
      * eapply Forall_impl; [by apply IH|].
        intros r' (f' & data' & ? & ? & ?). exists f', data'. split_and!; [by right|done..].
    + intros Hrs. eapply Forall_impl; [by apply IH|].
      intros r' (f' & data' & ? & ? & ?). exists f', data'. split_and!; [by right|done..].
Qed.
End corpus.

(** ** C1 *)

(** C1.  In every corpus the scanner returns, each record belongs to a
    document of the folder, and the counts of that document's components
    add up to at most the record's [total_components], which is the
    number of entries of the document's component list; the two are
    equal exactly when every entry is a mapping with a non-empty ['file']
    string. *)
Theorem counts_sum_le_total_components
    (basename : string → string) dir files setups (universe : gset string) :
  (analyze_setups_folder basename dir (Some files)).2 = inr (setups, universe) →
  Forall (λ setup, ∃ f data counts,
            f ∈ files ∧ document_of f = Some data ∧
            filename setup = jf_name f ∧
            component_counts setup = Some counts ∧
            total_components setup = length (entries_of (uc2_components_of data)) ∧
            sum_values counts ≤ total_components setup ∧
            (sum_values counts = total_components setup
             ↔ Forall usable (entries_of (uc2_components_of data))))
         setups.
Proof.
  rewrite analyze_setups_folder_result.
  destruct (scan_docs basename files) as [e|rs] eqn:Hscan; [done|].
  simpl. intros [= <- _].
  apply scan_docs_origin in Hscan.
  apply Forall_fmap. eapply Forall_impl; [exact Hscan|].
  intros [setup counts] (f & data & Hf & Hdoc & Hr).
  apply scan_document_sum_le_total in Hr as (Hn & Hc & Hl & Hle & Heq).
  exists f, data, counts. simpl. split_and!; done.
Qed.

Lemma counts_sum_le_total_components_witness :
  (analyze_setups_folder posixpath_basename "./setups" (Some example_folder)).2
    = inr ([setup_with "s.json" 3 ({[ "x.stl" := 2 ]} : gmap string nat)],
           ({[ "x.stl" ]} : gset string)) ∧
  Forall (λ setup, ∃ counts,
            component_counts setup = Some counts ∧
            sum_values counts ≤ total_components setup)
         [setup_with "s.json" 3 ({[ "x.stl" := 2 ]} : gmap string nat)].
Proof.
  assert ((analyze_setups_folder posixpath_basename "./setups" (Some example_folder)).2
            = inr ([setup_with "s.json" 3 ({[ "x.stl" := 2 ]} : gmap string nat)],
                   ({[ "x.stl" ]} : gset string))) as H
    by (vm_compute; reflexivity).
  split; [exact H|].
  eapply Forall_impl;
    [exact (counts_sum_le_total_components posixpath_basename _ _ _ _ H)|].
  intros setup (f & data & counts & _ & _ & _ & Hc & _ & Hle & _).
  exists counts. split; [exact Hc|exact Hle].
Defined.

Lemma sorted_Permutation (U : gset string) : sorted U ≡ₚ elements U.
Proof. apply merge_sort_Permutation. Qed.

Lemma sorted_Sorted (U : gset string) : Sorted String.le (sorted U).
Proof. apply (Sorted_merge_sort String.le). Qed.

Lemma column_leaders_sublist seen ids : column_leaders seen ids `sublist_of` ids.
Proof.
  revert seen. induction ids as [|x ids IH]; intros seen; simpl; [done|].
  case_decide; [by apply sublist_cons|by apply sublist_skip].
Qed.

Lemma column_leaders_all seen ids :
  NoDup (col_name <$> ids) → (∀ x, x ∈ ids → col_name x ∉ seen) →
  column_leaders seen ids = ids.
Proof.
  revert seen. induction ids as [|x ids IH]; intros seen Hn Hs; simpl; [done|].
  apply NoDup_cons in Hn as [Hx Hn].
  rewrite decide_False by (apply Hs; left). f_equal.
  apply IH; [done|]. intros y Hy [?|Hxy%list_elem_of_singleton]%elem_of_app.
  - apply (Hs y); [by right|done].
  - apply Hx. rewrite <- Hxy. by apply list_elem_of_fmap_2.
Qed.

Section written.
Variable basename : string → string.
Variable summary_statistics : DataFrame → list string * option exn.

(** A scan that ends with a non-empty corpus is followed by the write of
    the corpus' table, and by no other write. *)
Lemma main_table files s l U :
  (analyze_setups_folder basename "./setups" (Some files)).2 = inr (s :: l, U) →
  written_tables (main basename summary_statistics (Some files)).1
  = [("setups_analysis.csv", the_table (s :: l) U)].
Proof.
  rewrite analyze_setups_folder_result, written_tables_main.
  destruct (scan_docs basename files) as [e|[|r rs]]; simpl; try done.
  by intros [= <- <- <-].
Qed.
End written.

(** The whole of a table builder's call whose statistics block ends
    normally. *)
Lemma create_csv_database_trace
    (summary_statistics : DataFrame → list string * option exn)
    s l U output_file df lines :
  build_table (s :: l) U = inr df →
  summary_statistics df = (lines, None) →
  create_csv_database summary_statistics (s :: l) U output_file
  = ([ToCsv output_file df;
      LogInfo ("CSV database saved to: " +:+ output_file);
      Print (nl +:+ str_repeat "=" 60);
      Print "SETUP ANALYSIS SUMMARY";
      Print (str_repeat "=" 60);
      Print ("Total setup files processed: " +:+ pretty (length (values df)));
      Print ("Total unique component files: " +:+ pretty (size U))]
     ++ (Print <$> lines)
     ++ [Print (nl +:+ "Most used component files (top 10):")]
     ++ (Print <$> most_used_lines df)
     ++ [Print (nl +:+ "Detailed results saved to: " +:+ output_file);
         Print (str_repeat "=" 60)],
     inr tt).
Proof.
  intros Hb Hstats. unfold create_csv_database, run_summary_statistics.
  rewrite Hb. unfold lift. rewrite bind_unfold. cbn [fst snd app].
  rewrite Hstats, !print_all_unfold. cbn [fst snd].
  unfold print, logger_info. unfold bind, emit, ret. cbn [app fst snd].
  rewrite app_nil_r. reflexivity.
Qed.

(** ** C10 *)

(** Two component files that share a column leave the table one column
    short of one per file. *)
Lemma one_column_per_component_file_fails :
  ¬ (∀ (summary_statistics : DataFrame → list string * option exn)
       folder setups (universe : gset string) output_file df,
       (analyze_setups_folder posixpath_basename "./setups" folder).2
         = inr (setups, universe) →
       (output_file, df)
         ∈ written_tables (main posixpath_basename summary_statistics folder).1 →
       columns df = metadata_fields ++ (col_name <$> sorted universe)).
Proof.
  intros H.
  assert ((analyze_setups_folder posixpath_basename "./setups" (Some clashing_folder)).2
          = inr ([setup_with "s.json" 3
                    ({[ "lens-holder.stl" := 1; "lens_holder.stl" := 2 ]} : gmap string nat)],
                 ({[ "lens-holder.stl"; "lens_holder.stl" ]} : gset string))) as Hrun
    by (vm_compute; reflexivity).
  specialize (H (λ _, ([], None)) _ _ _ "setups_analysis.csv"
                {| columns := metadata_fields ++ ["component_lens_holder_stl"];
                   values := [[Some (JStr "s.json"); Some (JStr ""); Some (JBool false);
                               Some (JStr ""); Some (JStr ""); Some (JStr "");
                               Some (JStr ""); Some (JStr ""); Some (JStr "");
                               Some (JStr ""); Some (JInt 3); Some (JInt 2)]] |}
                Hrun).
  assert (columns {| columns := metadata_fields ++ ["component_lens_holder_stl"];
                     values := [] |}
          = metadata_fields ++ (col_name <$> sorted {[ "lens-holder.stl"; "lens_holder.stl" ]}))
    as Hcols; [|vm_compute in Hcols; discriminate].
  apply H. rewrite (main_table _ _ _ _ _ _ Hrun).
  apply list_elem_of_singleton. vm_compute. reflexivity.
Qed.

(** C10.  A run whose scan ends with a non-empty corpus writes one table.
    Its columns are the eleven metadata fields in the order of the row
    literal, followed by the column names of the component files taken in
    ascending order of the file names, each name once, at the place of
    the first file that takes it; files whose names become the same
    column name share that column.  When no two files of the corpus share
    a column name, this is one column per file. *)
Theorem table_columns_in_order
    (basename : string → string)
    (summary_statistics : DataFrame → list string * option exn)
    files s l (universe : gset string) :
  (analyze_setups_folder basename "./setups" (Some files)).2
    = inr (s :: l, universe) →
  ∃ df,
    written_tables (main basename summary_statistics (Some files)).1
      = [("setups_analysis.csv", df)] ∧
    columns df
      = ["filename"; "name"; "uc2_verified"; "collection"; "author"; "github_link";
         "description"; "category"; "version"; "createdAt"; "total_components"]
        ++ (col_name <$> column_leaders [] (sorted universe)) ∧
    column_leaders [] (sorted universe) `sublist_of` sorted universe ∧
    sorted universe ≡ₚ elements universe ∧
    Sorted String.le (sorted universe) ∧
    (NoDup (col_name <$> elements universe) →
     column_leaders [] (sorted universe) = sorted universe).
Proof.
  intros Hrun. exists (the_table (s :: l) universe).
  split_and!.
  - by apply main_table.
  - done.
  - apply column_leaders_sublist.
  - apply sorted_Permutation.
  - apply sorted_Sorted.
  - intros Hn. apply column_leaders_all.
    + by rewrite sorted_Permutation.
    + intros x _. apply not_elem_of_nil.
Qed.

(** ** The two-setup scenario *)

Lemma scenario_scan :
  (analyze_setups_folder posixpath_basename "./setups" (Some [file_A; file_B])).2
  = inr (scenario_setups, scenario_universe).
Proof. vm_compute. reflexivity. Qed.

Lemma table_columns_in_order_witness :
  (analyze_setups_folder posixpath_basename "./setups" (Some [file_A; file_B])).2
    = inr (scenario_setups, scenario_universe) ∧
  ∃ df,
    written_tables (main posixpath_basename (λ _, ([], None)) (Some [file_A; file_B])).1
      = [("setups_analysis.csv", df)] ∧
    columns df
      = ["filename"; "name"; "uc2_verified"; "collection"; "author"; "github_link";
         "description"; "category"; "version"; "createdAt"; "total_components"]
        ++ (col_name <$> column_leaders [] (sorted scenario_universe)).
Proof.
  assert ((analyze_setups_folder posixpath_basename "./setups" (Some [file_A; file_B])).2
          = inr (scenario_setups, scenario_universe)) as H
    by (vm_compute; reflexivity).
  split; [exact H|].
  destruct (table_columns_in_order posixpath_basename (λ _, ([], None)) _ _ _ _ H)
    as (df & Hw & Hc & _).
  exists df. split; [exact Hw|exact Hc].
Defined.

(** ** C6 *)

(** C6.  For the corpus of setup A (["nema17.stl"] twice, ["laser.stl"]
    once) and setup B (["nema17.stl"] once), in either order of the two
    files, the run writes the table with a column for each of the two
    files; row A has [total_components] 3, laser 1 and nema17 2, row B has
    [total_components] 1, laser 0 and nema17 1.  The "most used" block
    ranks the column of ["nema17.stl"] first with 3 uses and reports it
    under its human-readable name, the column name with the prefix
    dropped and the placeholder underscores turned back into spaces:
    ["nema17 stl"].  When the statistics block before it ends normally,
    these lines are printed as part of the summary. *)
Theorem two_setup_scenario
    (summary_statistics : DataFrame → list string * option exn) :
  written_tables (main posixpath_basename summary_statistics (Some [file_A; file_B])).1
    = [("setups_analysis.csv", scenario_table)] ∧
  written_tables (main posixpath_basename summary_statistics (Some [file_B; file_A])).1
    = [("setups_analysis.csv", scenario_table)] ∧
  component_totals scenario_table
    = [("component_nema17_stl", 3%Z); ("component_laser_stl", 1%Z)] ∧
  most_used_lines scenario_table
    = ["  1. nema17 stl: used 3 times"; "  2. laser stl: used 1 times"] ∧
  (∀ lines, summary_statistics scenario_table = (lines, None) →
     main posixpath_basename summary_statistics (Some [file_A; file_B])
     = ([LogInfo "Starting UC2 setup analysis...";
         LogInfo "Found 2 JSON files in ./setups";
         LogInfo "Processing: A.json";
         LogInfo "Processing: B.json";
         LogInfo "Successfully processed 2 setup files";
         LogInfo "Found 2 unique component files";
         ToCsv "setups_analysis.csv" scenario_table;
         LogInfo "CSV database saved to: setups_analysis.csv";
         Print (nl +:+ str_repeat "=" 60);
         Print "SETUP ANALYSIS SUMMARY";
         Print (str_repeat "=" 60);
         Print "Total setup files processed: 2";
         Print "Total unique component files: 2"]
        ++ (Print <$> lines)
        ++ [Print (nl +:+ "Most used component files (top 10):");
            Print "  1. nema17 stl: used 3 times";
            Print "  2. laser stl: used 1 times";
            Print (nl +:+ "Detailed results saved to: setups_analysis.csv");
            Print (str_repeat "=" 60);
            LogInfo "Analysis complete!"],
        inr tt)).
Proof.
  split_and!.
  - rewrite (main_table _ _ _ _ _ _ scenario_scan). vm_compute. reflexivity.
  - assert ((analyze_setups_folder posixpath_basename "./setups"
               (Some [file_B; file_A])).2
            = inr (reverse scenario_setups, scenario_universe)) as Hscan
      by (vm_compute; reflexivity).
    rewrite (main_table _ _ _ _ _ _ Hscan). vm_compute. reflexivity.
  - vm_compute. reflexivity.
  - vm_compute. reflexivity.
  - intros lines Hstats.
    rewrite main_unfold.
    assert (analyze_setups_folder posixpath_basename "./setups" (Some [file_A; file_B])
            = ([LogInfo "Found 2 JSON files in ./setups";
                LogInfo "Processing: A.json";
                LogInfo "Processing: B.json";
                LogInfo "Successfully processed 2 setup files";
                LogInfo "Found 2 unique component files"],
               inr (scenario_setups, scenario_universe))) as ->
      by (vm_compute; reflexivity).
    cbn [fst snd scenario_setups].
    erewrite create_csv_database_trace;
      [|vm_compute; reflexivity|exact Hstats].
    cbn [fst snd app fmap list_fmap]. f_equal.
    rewrite <- !app_assoc. reflexivity.
Qed.

Lemma two_setup_scenario_witness :
  (main posixpath_basename (λ _, (["Average components per setup: 2.0"], None))
     (Some [file_A; file_B])).2 = inr tt.
Proof.
  rewrite (proj2 (proj2 (proj2 (proj2
    (two_setup_scenario (λ _, (["Average components per setup: 2.0"], None))))))
    ["Average components per setup: 2.0"] eq_refl).
  reflexivity.
Defined.

(** ** C8 *)

(** C8.  Two runs over the same folder, whatever the order in which the
    file system lists its files, write the same: the same table under the
    same name, or nothing both times.  (The bytes of the file are
    [to_csv] of that table with fixed arguments.)  When the scan ends
    with a non-empty corpus the table is written; its rows are the rows
    of the scanned setups in ascending order of file name, and its
    component columns follow the ascending order of the component files
    they stand for. *)
Theorem rerun_writes_same_table
    (basename : string → string)
    (summary_statistics : DataFrame → list string * option exn)
    (files1 files2 : list json_file) :
  files1 ≡ₚ files2 →
  NoDup (jf_name <$> files1) →
  written_tables (main basename summary_statistics (Some files1)).1
    = written_tables (main basename summary_statistics (Some files2)).1 ∧
  ∀ s l (universe : gset string),
    (analyze_setups_folder basename "./setups" (Some files1)).2
      = inr (s :: l, universe) →
    ∃ df ordered,
      written_tables (main basename summary_statistics (Some files2)).1
        = [("setups_analysis.csv", df)] ∧
      ordered ≡ₚ s :: l ∧
      Sorted String.le (filename <$> ordered) ∧
      values df = cells_of universe <$> ordered ∧
      columns df
        = metadata_fields ++ (col_name <$> column_leaders [] (sorted universe)) ∧
      column_leaders [] (sorted universe) `sublist_of` sorted universe ∧
      Sorted String.le (sorted universe).
Proof.
  intros Hp Hn.
  assert (written_tables (main basename summary_statistics (Some files1)).1
          = written_tables (main basename summary_statistics (Some files2)).1) as Hsame.
  { rewrite !written_tables_main.
    pose proof (scan_docs_permutation basename files1 files2 Hp) as Hs.
    destruct (scan_docs basename files1) as [e1|rs1] eqn:H1,
             (scan_docs basename files2) as [e2|rs2] eqn:H2; try done.
    assert (the_table rs1.*1 (⋃ (dom <$> rs1.*2))
            = the_table rs2.*1 (⋃ (dom <$> rs2.*2))) as Ht.
    { assert (⋃ (dom <$> rs1.*2) = ⋃ (dom <$> rs2.*2) :> gset string) as ->.
      { apply leibniz_equiv. by rewrite Hs. }
      apply the_table_permutation; [by rewrite Hs|].
      apply scan_docs_records in H1 as [_ Hsub].
      by eapply sublist_NoDup. }
    destruct rs1 as [|r1 rs1], rs2 as [|r2 rs2]; try done.
    - by apply Permutation_nil_cons in Hs.
    - symmetry in Hs. by apply Permutation_nil_cons in Hs.
    - by rewrite Ht. }
  split; [exact Hsame|].
  intros s l universe Hrun.
  destruct (the_table_rows (s :: l) universe) as (ordered & Ho & Hso & Hv).
  exists (the_table (s :: l) universe), ordered.
  split_and!; try done.
  - rewrite <- Hsame. by apply main_table.
  - apply column_leaders_sublist.
  - apply sorted_Sorted.
Qed.

Lemma rerun_writes_same_table_witness :
  [file_A; file_B] ≡ₚ [file_B; file_A] ∧
  NoDup (jf_name <$> [file_A; file_B]) ∧
  written_tables (main posixpath_basename (λ _, ([], None)) (Some [file_A; file_B])).1
    = written_tables (main posixpath_basename (λ _, ([], None)) (Some [file_B; file_A])).1.
Proof.
  assert ([file_A; file_B] ≡ₚ [file_B; file_A]) as Hp by apply perm_swap.
  assert (NoDup (jf_name <$> [file_A; file_B])) as Hn.
  { simpl. apply NoDup_cons. split.
    - intros H%list_elem_of_singleton. discriminate H.
    - apply NoDup_singleton. }
  split; [exact Hp|]. split; [exact Hn|].
  exact (proj1 (rerun_writes_same_table posixpath_basename (λ _, ([], None)) _ _ Hp Hn)).
Defined.

(** * Further properties *)

(** ** The scan *)

Lemma scan_docs_app (basename : string → string) l1 l2 :
  scan_docs basename (l1 ++ l2)
  = (r1 <-? scan_docs basename l1 ;; r2 <-? scan_docs basename l2 ;; inr (r1 ++ r2)).
Proof.
  induction l1 as [|f l1 IH]; simpl.
  - by destruct (scan_docs basename l2).
  - destruct (document_of f) as [data|]; [|exact IH].
    destruct (scan_document basename data (jf_name f)) as [e|r]; [done|].
    simpl. rewrite IH. destruct (scan_docs basename l1) as [e|r1]; [done|].
    simpl. by destruct (scan_docs basename l2).
Qed.

Lemma scan_docs_filenames (basename : string → string) files rs :
  scan_docs basename files = inr rs →
  filename <$> rs.*1 = jf_name <$> filter (λ f, is_Some (document_of f)) files.
Proof.
  revert rs. induction files as [|f files IH]; intros rs; simpl.
  - by intros [= <-].
  - rewrite filter_cons. destruct (document_of f) as [data|] eqn:Hdoc.
    + rewrite decide_True by eauto.
      destruct (scan_document basename data (jf_name f)) as [e|[m c]] eqn:Hm; [done|].
      simpl. destruct (scan_docs basename files) as [e|rs']; [done|]. simpl.
      intros [= <-]. simpl.
      destruct (scan_document_sum_le_total basename _ _ _ _ Hm) as [<- _].
      f_equal. by apply IH.
    + rewrite decide_False by (by intros [? [=]]). apply IH.
Qed.

(** X1.  The records of a completed scan are those of the files that
    give a document, one each and in the order the folder lists them;
    files that fail to load, or hold [null], leave no record. *)
Theorem records_follow_the_files
    (basename : string → string) dir files setups (universe : gset string) :
  (analyze_setups_folder basename dir (Some files)).2 = inr (setups, universe) →
  filename <$> setups
  = jf_name <$> filter (λ f, is_Some (document_of f)) files.
Proof.
  rewrite analyze_setups_folder_result.
  destruct (scan_docs basename files) as [e|rs] eqn:Hscan; [done|].
  simpl. intros [= <- _]. by apply (scan_docs_filenames basename).
Qed.

Lemma records_follow_the_files_witness :
  (analyze_setups_folder posixpath_basename "./setups"
     (Some [file_B; broken_file; file_A])).2
    = inr (reverse scenario_setups, scenario_universe) ∧
  filename <$> reverse scenario_setups = ["B.json"; "A.json"].
Proof.
  assert ((analyze_setups_folder posixpath_basename "./setups"
             (Some [file_B; broken_file; file_A])).2
          = inr (reverse scenario_setups, scenario_universe)) as H
    by (vm_compute; reflexivity).
  split; [exact H|].
  rewrite (records_follow_the_files posixpath_basename _ _ _ _ H).
  reflexivity.
Defined.

(** X2.  After a completed scan the set of component files is the union
    of the key sets of the records' counts: a name is in the set exactly
    when some record counts it. *)
Theorem universe_is_union_of_counted_files
    (basename : string → string) dir files setups (universe : gset string) :
  (analyze_setups_folder basename dir (Some files)).2 = inr (setups, universe) →
  ∀ k, k ∈ universe
       ↔ ∃ setup counts, setup ∈ setups ∧ component_counts setup = Some counts ∧
                         is_Some (counts !! k).
Proof.
  rewrite analyze_setups_folder_result.
  destruct (scan_docs basename files) as [e|rs] eqn:Hscan; [done|].
  simpl. intros [= <- <-] k.
  apply scan_docs_records in Hscan as [Hc _].
  rewrite Forall_forall in Hc.
  rewrite elem_of_union_list. split.
  - intros (X & (c & -> & ([m c'] & -> & Hr)%list_elem_of_fmap)%list_elem_of_fmap & Hk).
    exists m, c'. split_and!.
    + apply list_elem_of_fmap. by exists (m, c').
    + by apply (Hc (m, c')).
    + by apply elem_of_dom.
  - intros (m & c & ([m' c'] & -> & Hr)%list_elem_of_fmap & Hm & Hk).
    specialize (Hc _ Hr). simpl in *. rewrite Hm in Hc. injection Hc as <-.
    exists (dom c). split; [|by apply elem_of_dom].
    apply list_elem_of_fmap. exists c. split; [done|].
    apply list_elem_of_fmap. by exists (m', c).
Qed.

Lemma universe_is_union_of_counted_files_witness :
  (analyze_setups_folder posixpath_basename "./setups" (Some [file_A; file_B])).2
    = inr (scenario_setups, scenario_universe) ∧
  ("laser.stl" ∈ scenario_universe
   ↔ ∃ setup counts, setup ∈ scenario_setups ∧ component_counts setup = Some counts ∧
                     is_Some (counts !! "laser.stl")).
Proof.
  assert ((analyze_setups_folder posixpath_basename "./setups" (Some [file_A; file_B])).2
          = inr (scenario_setups, scenario_universe)) as H
    by (vm_compute; reflexivity).
  split; [exact H|].
  exact (universe_is_union_of_counted_files posixpath_basename _ _ _ _ H "laser.stl").
Defined.

(** X3.  A file that gives no document (it does not parse, cannot be
    read, or holds [null]) changes nothing in what the scan returns,
    wherever it stands in the folder. *)
Theorem file_without_document_is_skipped
    (basename : string → string) dir l1 f l2 :
  document_of f = None →
  (analyze_setups_folder basename dir (Some (l1 ++ f :: l2))).2
  = (analyze_setups_folder basename dir (Some (l1 ++ l2))).2.
Proof.
  intros Hf. rewrite !analyze_setups_folder_result, !scan_docs_app.
  simpl. by rewrite Hf.
Qed.

Lemma file_without_document_is_skipped_witness :
  document_of broken_file = None ∧
  (analyze_setups_folder posixpath_basename "./setups"
     (Some ([file_A] ++ broken_file :: [file_B]))).2
  = (analyze_setups_folder posixpath_basename "./setups"
       (Some ([file_A] ++ [file_B]))).2.
Proof.
  assert (document_of broken_file = None) as H by reflexivity.
  split; [exact H|].
  exact (file_without_document_is_skipped posixpath_basename "./setups"
           [file_A] broken_file [file_B] H).
Defined.

Lemma scan_docs_raises (basename : string → string) files f data e0 :
  f ∈ files → document_of f = Some data →
  scan_document basename data (jf_name f) = inl e0 →
  ∃ e, scan_docs basename files = inl e.
Proof.
  intros Hf Hdoc He. induction files as [|g files IH]; [by apply elem_of_nil in Hf|].
  simpl. apply elem_of_cons in Hf as [<-|Hf].
  - rewrite Hdoc, He. eauto.
  - destruct (IH Hf) as [e ->].
    destruct (document_of g) as [dg|]; [|eauto].
    destruct (scan_document basename dg (jf_name g)); simpl; eauto.
Qed.

(** X4.  A document on which the scanner raises ends the whole run,
    wherever its file stands: the run raises, and up to then it has only
    logged; no table is written and nothing is printed, also for the
    documents scanned before. *)
Theorem raising_document_ends_the_run
    (basename : string → string)
    (summary_statistics : DataFrame → list string * option exn)
    files f data e0 :
  f ∈ files → document_of f = Some data →
  scan_document basename data (jf_name f) = inl e0 →
  (∃ e, (main basename summary_statistics (Some files)).2 = inl e) ∧
  Forall is_log (main basename summary_statistics (Some files)).1.
Proof.
  intros Hf Hdoc He.
  destruct (scan_docs_raises basename files f data e0 Hf Hdoc He) as [e Hscan].
  pose proof (analyze_setups_folder_result basename "./setups" files) as Hres.
  pose proof (analyze_setups_folder_logs basename "./setups" (Some files)) as Hlogs.
  rewrite Hscan in Hres. cbn [rbind] in Hres.
  rewrite main_unfold. cbn zeta. rewrite Hres.
  split; [by exists e|]. by constructor.
Qed.

Lemma raising_document_ends_the_run_witness :
  list_file ∈ [file_A; list_file; file_B] ∧
  document_of list_file = Some (JList [JInt 1]) ∧
  scan_document posixpath_basename (JList [JInt 1]) (jf_name list_file)
    = inl AttributeError ∧
  Forall is_log
    (main posixpath_basename (λ _, ([], None)) (Some [file_A; list_file; file_B])).1.
Proof.
  assert (list_file ∈ [file_A; list_file; file_B]) as H1 by (right; left).
  assert (document_of list_file = Some (JList [JInt 1])) as H2 by reflexivity.
  assert (scan_document posixpath_basename (JList [JInt 1]) (jf_name list_file)
          = inl AttributeError) as H3 by reflexivity.
  split; [exact H1|]. split; [exact H2|]. split; [exact H3|].
  exact (proj2 (raising_document_ends_the_run posixpath_basename (λ _, ([], None))
                  _ _ _ _ H1 H2 H3)).
Defined.

(** X5.  The scanner's loop only appends and only adds: what it returns
    extends the list it was given by at most one record per file, and
    contains the set it was given. *)
Theorem scan_files_extends
    (basename : string → string) files acc (U : gset string) acc' U' :
  (scan_files basename files acc U).2 = inr (acc', U') →
  ∃ new, acc' = acc ++ new ∧ length new ≤ length files ∧ U ⊆ U'.
Proof.
  rewrite scan_files_result.
  destruct (scan_docs basename files) as [e|rs] eqn:Hscan; [done|].
  simpl. intros [= <- <-]. exists rs.*1. split_and!; [done| |set_solver].
  apply scan_docs_records in Hscan as [_ Hsub].
  apply sublist_length in Hsub. by rewrite !length_fmap in *.
Qed.

Lemma scan_files_extends_witness :
  (scan_files posixpath_basename [file_B] [setup_with "0.json" 0 ∅] {[ "old.stl" ]}).2
    = inr ([setup_with "0.json" 0 ∅; setup_with "B.json" 1 {[ "nema17.stl" := 1 ]}],
           ({[ "old.stl"; "nema17.stl" ]} : gset string)) ∧
  ({[ "old.stl" ]} : gset string) ⊆ {[ "old.stl"; "nema17.stl" ]}.
Proof.
  assert ((scan_files posixpath_basename [file_B] [setup_with "0.json" 0 ∅]
             {[ "old.stl" ]}).2
          = inr ([setup_with "0.json" 0 ∅; setup_with "B.json" 1 {[ "nema17.stl" := 1 ]}],
                 ({[ "old.stl"; "nema17.stl" ]} : gset string))) as H
    by (vm_compute; reflexivity).
  split; [exact H|].
  destruct (scan_files_extends posixpath_basename _ _ _ _ _ H) as (new & _ & _ & Hsub).
  exact Hsub.
Defined.

(** ** The counter and one document *)

Lemma py_iter_measurable v :
  py_iter v = if measurable v then inr (entries_of v) else inl TypeError.
Proof. unfold entries_of. by destruct v. Qed.

(** The counter on a value that can be iterated. *)
Lemma count_measurable (basename : string → string) v :
  measurable v = true →
  count_components_by_file basename v
  = if forallb (λ c, negb (unsplittable c)) (entries_of v)
    then inr (Counter (basename <$> omap file_of (entries_of v)))
    else inl TypeError.
Proof.
  intros Hm. unfold count_components_by_file.
  destruct (py_truthy v) eqn:Ht; simpl.
  - rewrite py_iter_measurable, Hm. simpl. rewrite component_files_spec.
    by destruct (forallb _ _).
  - by rewrite (falsy_entries v Ht).
Qed.

Lemma count_not_measurable (basename : string → string) v :
  measurable v = false →
  count_components_by_file basename v
  = if py_truthy v then inl TypeError else inr ∅.
Proof.
  intros Hm. unfold count_components_by_file.
  destruct (py_truthy v); simpl; [|done].
  by rewrite py_iter_measurable, Hm.
Qed.

Lemma forallb_not_unsplittable l :
  forallb (λ c, negb (unsplittable c)) l = false
  ↔ ∃ c, c ∈ l ∧ unsplittable c = true.
Proof.
  induction l as [|c l IH]; simpl.
  - split; [done|]. by intros (c & ?%elem_of_nil & _).
  - rewrite andb_false_iff, IH, negb_false_iff. split.
    + intros [Hc|(c' & Hc' & Hu)]; [exists c; split; [left|done]|].
      exists c'. split; [by right|done].
    + intros (c' & [->|Hc']%elem_of_cons & Hu); [by left|]. right. eauto.
Qed.

(** X6.  The counter raises nothing but [TypeError], and raises it
    exactly when the value is truthy and either cannot be iterated (a
    number, [true]) or holds an entry whose ['file'] is truthy without
    being a string.  On every falsy value ([null], [[]], [{}], the empty
    string, [0], [false]) it returns the empty mapping. *)
Theorem counter_raises_iff (basename : string → string) v :
  (∀ e, count_components_by_file basename v = inl e
        ↔ e = TypeError ∧ py_truthy v = true ∧
          (measurable v = false ∨ ∃ c, c ∈ entries_of v ∧ unsplittable c = true)) ∧
  (py_truthy v = false → count_components_by_file basename v = inr ∅).
Proof.
  split.
  - intros e. destruct (measurable v) eqn:Hm.
    + rewrite count_measurable by done.
      destruct (forallb _ _) eqn:Hall.
      * split; [done|]. intros (_ & _ & [?|Hex]); [done|].
        apply forallb_not_unsplittable in Hex. congruence.
      * apply forallb_not_unsplittable in Hall as (c & Hc & Hu).
        split.
        -- intros [= <-]. split_and!; [done| |right; eauto].
           destruct (py_truthy v) eqn:Ht; [done|].
           rewrite (falsy_entries v Ht) in Hc. by apply elem_of_nil in Hc.
        -- by intros (-> & _).
    + rewrite count_not_measurable by done.
      destruct (py_truthy v); split; try done.
      * intros [= <-]. split_and!; auto.
      * by intros (-> & _).
      * by intros (_ & ? & _).
  - intros Ht. unfold count_components_by_file. by rewrite Ht.
Qed.

Lemma counter_raises_iff_witness :
  py_truthy (JInt 0) = false ∧
  count_components_by_file posixpath_basename (JInt 0) = inr ∅.
Proof.
  assert (py_truthy (JInt 0) = false) as H by reflexivity.
  split; [exact H|].
  exact (proj2 (counter_raises_iff posixpath_basename (JInt 0)) H).
Defined.

Lemma occurrences_Permutation k l1 l2 :
  l1 ≡ₚ l2 → occurrences k l1 = occurrences k l2.
Proof. intros Hp. unfold occurrences. by rewrite Hp. Qed.

Lemma occurrences_app k l1 l2 :
  occurrences k (l1 ++ l2) = occurrences k l1 + occurrences k l2.
Proof. unfold occurrences. by rewrite filter_app, length_app. Qed.

Lemma Counter_Permutation l1 l2 : l1 ≡ₚ l2 → Counter l1 = Counter l2.
Proof.
  intros Hp. apply map_eq. intros k.
  by rewrite !Counter_lookup, (occurrences_Permutation k l1 l2 Hp).
Qed.

Lemma forallb_Permutation {A} (p : A → bool) l1 l2 :
  l1 ≡ₚ l2 → forallb p l1 = forallb p l2.
Proof.
  induction 1 as [|x l1 l2 _ IH|x y l|l1 l2 l3 _ IH1 _ IH2]; simpl.
  - done.
  - by rewrite IH.
  - by destruct (p x), (p y).
  - by rewrite IH1.
Qed.

(** X7.  The counts do not depend on the order of the entries: two lists
    with the same entries in any order are counted alike, and raise
    alike. *)
Theorem counter_ignores_order (basename : string → string) l1 l2 :
  l1 ≡ₚ l2 →
  count_components_by_file basename (JList l1)
  = count_components_by_file basename (JList l2).
Proof.
  intros Hp. rewrite !count_measurable by done.
  unfold entries_of. simpl.
  rewrite (forallb_Permutation _ l1 l2 Hp).
  destruct (forallb _ l2); [|done].
  f_equal. apply Counter_Permutation. by rewrite Hp.
Qed.

Lemma counter_ignores_order_witness :
  [component "a.stl"; JNull; component "b.stl"]
    ≡ₚ [component "b.stl"; component "a.stl"; JNull] ∧
  count_components_by_file posixpath_basename
    (JList [component "a.stl"; JNull; component "b.stl"])
  = count_components_by_file posixpath_basename
      (JList [component "b.stl"; component "a.stl"; JNull]).
Proof.
  assert ([component "a.stl"; JNull; component "b.stl"]
            ≡ₚ [component "b.stl"; component "a.stl"; JNull]) as H.
  { etrans; [apply perm_skip, perm_swap|]. etrans; [apply perm_swap|].
    apply perm_skip. reflexivity. }
  split; [exact H|].
  exact (counter_ignores_order posixpath_basename _ _ H).
Defined.

(** X8.  Counting a list put together from two lists adds the counts of
    the two: the counter returns on the whole exactly when it returns on
    both parts, and then each name's count is the sum of its counts in
    the parts (a name absent from a part counting 0 there). *)
Theorem counter_adds_over_concatenation (basename : string → string) l1 l2 counts :
  count_components_by_file basename (JList (l1 ++ l2)) = inr counts →
  ∃ counts1 counts2,
    count_components_by_file basename (JList l1) = inr counts1 ∧
    count_components_by_file basename (JList l2) = inr counts2 ∧
    ∀ k, default 0 (counts !! k)
         = default 0 (counts1 !! k) + default 0 (counts2 !! k).
Proof.
  rewrite !count_measurable by done. unfold entries_of. simpl.
  rewrite forallb_app.
  destruct (forallb _ l1); [|done]. destruct (forallb _ l2); [|done]. simpl.
  intros [= <-]. do 2 eexists. split_and!; [done..|].
  intros k. rewrite !Counter_lookup, omap_app, fmap_app, occurrences_app.
  repeat case_decide; simpl; lia.
Qed.

Lemma counter_adds_over_concatenation_witness :
  count_components_by_file posixpath_basename
    (JList ([component "a.stl"] ++ [component "x/a.stl"; component "b.stl"]))
    = inr ({[ "a.stl" := 2; "b.stl" := 1 ]} : gmap string nat) ∧
  ∃ counts1 counts2,
    count_components_by_file posixpath_basename (JList [component "a.stl"])
      = inr counts1 ∧
    count_components_by_file posixpath_basename
      (JList [component "x/a.stl"; component "b.stl"]) = inr counts2 ∧
    default 0 (counts1 !! "a.stl") + default 0 (counts2 !! "a.stl") = 2.
Proof.
  assert (count_components_by_file posixpath_basename
            (JList ([component "a.stl"] ++ [component "x/a.stl"; component "b.stl"]))
          = inr ({[ "a.stl" := 2; "b.stl" := 1 ]} : gmap string nat)) as H
    by (vm_compute; reflexivity).
  split; [exact H|].
  destruct (counter_adds_over_concatenation posixpath_basename _ _ _ H)
    as (c1 & c2 & H1 & H2 & Hk).
  exists c1, c2. split; [exact H1|]. split; [exact H2|].
  rewrite <- (Hk "a.stl"). reflexivity.
Defined.

(** X9.  What decides whether the scanner completes a document.  A
    document that is not a mapping raises [AttributeError].  A mapping
    raises [TypeError] when the value under ['uc2_components'] has no
    length ([null], a boolean, a number) or holds an entry whose ['file']
    is truthy without being a string; in every other case the scanner
    returns a record. *)
Theorem scan_document_outcome (basename : string → string) data file_name :
  match data with
  | JDict d =>
      let v := default (JList []) (d !! "uc2_components") in
      if measurable v && forallb (λ c, negb (unsplittable c)) (entries_of v)
      then ∃ setup counts,
             scan_document basename data file_name = inr (setup, counts)
      else scan_document basename data file_name = inl TypeError
  | _ => scan_document basename data file_name = inl AttributeError
  end.
Proof.
  destruct data as [| | | | | |d]; try reflexivity.
  cbn zeta. unfold scan_document. rewrite extract_setup_metadata_dict.
  cbn [rbind py_get].
  generalize (default (JList []) (d !! "uc2_components")). intros v.
  destruct (measurable v) eqn:Hm; cbn [andb].
  - assert (∃ n, py_len v = inr n) as [n ->] by (destruct v; try done; eauto).
    cbn [rbind]. rewrite count_measurable by done.
    destruct (forallb _ _); cbn [rbind]; eauto.
  - by destruct v.
Qed.

(** X10.  A mapping whose ['uc2_components'] is [null], a boolean or a
    number makes the scanner raise [TypeError]: [len] is taken before the
    counter is called, although the counter itself returns the empty
    mapping for the falsy ones among these values. *)
Theorem components_without_length_raise
    (basename : string → string) d file_name v :
  d !! "uc2_components" = Some v → measurable v = false →
  scan_document basename (JDict d) file_name = inl TypeError ∧
  (py_truthy v = false → count_components_by_file basename v = inr ∅).
Proof.
  intros Hv Hm. split.
  - unfold scan_document. rewrite extract_setup_metadata_dict.
    cbn [rbind py_get]. rewrite Hv. simpl. by destruct v.
  - intros Ht. by rewrite count_not_measurable, Ht.
Qed.

Lemma components_without_length_raise_witness :
  ({[ "name" := JStr "Lightsheet"; "uc2_components" := JNull ]}
     : gmap string json) !! "uc2_components" = Some JNull ∧
  measurable JNull = false ∧
  scan_document posixpath_basename
    (JDict {[ "name" := JStr "Lightsheet"; "uc2_components" := JNull ]}) "l.json"
    = inl TypeError.
Proof.
  assert (({[ "name" := JStr "Lightsheet"; "uc2_components" := JNull ]}
             : gmap string json) !! "uc2_components" = Some JNull) as H1
    by (vm_compute; reflexivity).
  assert (measurable JNull = false) as H2 by reflexivity.
  split; [exact H1|]. split; [exact H2|].
  exact (proj1 (components_without_length_raise posixpath_basename _ "l.json" _ H1 H2)).
Defined.

(** X11.  A mapping without ['uc2_components'], or with the empty list
    under it, is no error: the scanner returns the record of the file
    with [total_components] 0 and empty counts. *)
Theorem no_components_is_no_error (basename : string → string) d file_name :
  d !! "uc2_components" = None ∨ d !! "uc2_components" = Some (JList []) →
  ∃ setup,
    scan_document basename (JDict d) file_name = inr (setup, ∅) ∧
    filename setup = file_name ∧
    total_components setup = 0 ∧
    component_counts setup = Some ∅.
Proof.
  intros Hd. unfold scan_document. rewrite extract_setup_metadata_dict.
  cbn [rbind py_get].
  assert (default (JList []) (d !! "uc2_components") = JList []) as ->
    by (by destruct Hd as [-> | ->]).
  eexists. split; [reflexivity|]. done.
Qed.

Lemma no_components_is_no_error_witness :
  (({[ "name" := JStr "Lightsheet" ]} : gmap string json) !! "uc2_components" = None ∨
   ({[ "name" := JStr "Lightsheet" ]} : gmap string json) !! "uc2_components"
     = Some (JList [])) ∧
  ∃ setup,
    scan_document posixpath_basename (JDict {[ "name" := JStr "Lightsheet" ]}) "l.json"
      = inr (setup, ∅) ∧
    total_components setup = 0.
Proof.
  assert (({[ "name" := JStr "Lightsheet" ]} : gmap string json) !! "uc2_components" = None ∨
          ({[ "name" := JStr "Lightsheet" ]} : gmap string json) !! "uc2_components"
            = Some (JList [])) as H by (left; vm_compute; reflexivity).
  split; [exact H|].
  destruct (no_components_is_no_error posixpath_basename _ "l.json" H)
    as (setup & Hs & _ & Ht & _).
  exists setup. split; [exact Hs|exact Ht].
Defined.

(** ** Base names and column names *)

Lemma posixpath_basename_split p :
  ∃ head, p = head +:+ posixpath_basename p ∧ is_directory_part head ∧
          has_char "/" (posixpath_basename p) = false.
Proof.
  induction p as [|a p IH].
  - exists "". split_and!; [done|by left|done].
  - destruct IH as (head & Hp & Hhead & Hno).
    unfold posixpath_basename in *. simpl.
    destruct (rfind_char "/" p) as [i|] eqn:Hr.
    + exists (String a head). split_and!; [by rewrite Hp at 1| |done].
      destruct Hhead as [->|[h ->]]; [|right; by exists (String a h)].
      assert (p = str_drop (S i) p) as Hp' by exact Hp.
      rewrite <- Hp' in Hno. apply rfind_char_None in Hno. congruence.
    + apply rfind_char_None in Hr as Hp'.
      destruct (decide (a = "/"%char)) as [->|Hne].
      * exists "/". split_and!; [done|right; by exists ""|done].
      * exists "". split_and!; [done|by left|].
        simpl. rewrite Hp'. by rewrite bool_decide_eq_false_2.
Qed.

(** X12.  Where [os.path] is [posixpath], every name the counter returns
    is free of slashes and is the last segment of the ['file'] path of
    some entry: that path is the name, or ends with a slash followed by
    the name. *)
Theorem posix_names_are_last_segments uc2_components counts k :
  count_components_by_file posixpath_basename uc2_components = inr counts →
  is_Some (counts !! k) →
  has_char "/" k = false ∧
  ∃ c path head,
    c ∈ entries_of uc2_components ∧ file_of c = Some path ∧
    path = head +:+ k ∧ is_directory_part head.
Proof.
  intros ->%count_components_by_file_inr. rewrite Counter_lookup.
  case_decide as Hocc; [by intros [? [=]]|]. intros _.
  assert (k ∈ posixpath_basename <$> omap file_of (entries_of uc2_components)) as Hk
    by (apply occurrences_pos; lia).
  apply list_elem_of_fmap in Hk as (path & -> & (c & Hc & Hpath)%list_elem_of_omap).
  destruct (posixpath_basename_split path) as (head & Hp & Hhead & Hno).
  split; [done|]. by exists c, path, head.
Qed.

Lemma posix_names_are_last_segments_witness :
  count_components_by_file posixpath_basename
    (JList [component "parts/motors/nema17.stl"])
    = inr ({[ "nema17.stl" := 1 ]} : gmap string nat) ∧
  is_Some (({[ "nema17.stl" := 1 ]} : gmap string nat) !! "nema17.stl") ∧
  has_char "/" "nema17.stl" = false.
Proof.
  assert (count_components_by_file posixpath_basename
            (JList [component "parts/motors/nema17.stl"])
          = inr ({[ "nema17.stl" := 1 ]} : gmap string nat)) as H1
    by (vm_compute; reflexivity).
  assert (is_Some (({[ "nema17.stl" := 1 ]} : gmap string nat) !! "nema17.stl")) as H2
    by (exists 1; vm_compute; reflexivity).
  split; [exact H1|]. split; [exact H2|].
  exact (proj1 (posix_names_are_last_segments _ _ _ H1 H2)).
Defined.

Lemma has_char_app c s1 s2 :
  has_char c (s1 +:+ s2) = has_char c s1 || has_char c s2.
Proof.
  induction s1 as [|a s1 IH]; [done|].
  change (String a s1 +:+ s2) with (String a (s1 +:+ s2)).
  simpl. by rewrite IH, orb_assoc.
Qed.

Lemma has_char_string_map c f s :
  (∀ a, f a ≠ c) → has_char c (string_map f s) = false.
Proof.
  intros Hf. induction s as [|a s IH]; [done|].
  simpl. rewrite IH. by rewrite bool_decide_eq_false_2.
Qed.

Lemma length_string_map f s : String.length (string_map f s) = String.length s.
Proof. induction s; simpl; by f_equal. Qed.

Lemma sanitise_safe a :
  sanitise a ≠ "."%char ∧ sanitise a ≠ " "%char ∧ sanitise a ≠ "-"%char.
Proof.
  unfold sanitise. case_decide as Hd; [by split_and!|].
  split_and!; intros Ha; apply Hd; rewrite Ha; auto.
Qed.

(** X13.  Whatever the component file, its column name begins with
    ["component_"], holds no period, no space and no hyphen, and is ten
    characters longer than the file name. *)
Theorem col_name_is_safe component_file :
  startswith "component_" (col_name component_file) = true ∧
  has_char "." (col_name component_file) = false ∧
  has_char " " (col_name component_file) = false ∧
  has_char "-" (col_name component_file) = false ∧
  String.length (col_name component_file) = 10 + String.length component_file.
Proof.
  rewrite col_name_string_map. split_and!.
  - by destruct (string_map sanitise component_file).
  - rewrite has_char_app, has_char_string_map; [done|]. intros a. apply sanitise_safe.
  - rewrite has_char_app, has_char_string_map; [done|]. intros a. apply sanitise_safe.
  - rewrite has_char_app, has_char_string_map; [done|]. intros a. apply sanitise_safe.
  - rewrite <- (length_string_map sanitise component_file).
    generalize (string_map sanitise component_file). intros s. reflexivity.
Qed.

(** ** The ranking of the summary *)


Lemma insert_total_Permutation x l : insert_total x l ≡ₚ x :: l.
Proof.
  induction l as [|y l IH]; simpl; [done|].
  case_decide; [done|]. rewrite IH. apply Permutation_swap.
Qed.

Lemma sort_values_descending_Permutation series :
  sort_values_descending series ≡ₚ series.
Proof.
  induction series as [|x l IH]; simpl; [done|].
  by rewrite insert_total_Permutation, IH.
Qed.






(** Two pairs of columns with equal totals: each pair keeps its order. *)
Lemma sort_values_descending_ties :
  sort_values_descending [("a", 1%Z); ("b", 2%Z); ("c", 1%Z); ("d", 2%Z)]
  = [("b", 2%Z); ("d", 2%Z); ("a", 1%Z); ("c", 1%Z)].
Proof. reflexivity. Qed.




(** ** The rows of the table *)

(** After the component columns are added, a column holds the count of
    the last file, in sorted order, that takes its name; a key no file
    takes is as it was. *)
Lemma dict_lookup_add_columns_last counts U row k :
  dict_lookup k (add_component_columns counts U row)
  = match last (filter (λ y, col_name y = k) (sorted U)) with
    | Some y => Some (JInt (Z.of_nat (default 0 (counts !! y))))
    | None => dict_lookup k row
    end.
Proof.
  unfold add_component_columns. generalize (sorted U). intros ids.
  revert row. induction ids as [|x ids IH]; intros row; [done|].
  cbn [foldl]. rewrite IH, filter_cons, dict_lookup_setitem.
  destruct (decide (col_name x = k)) as [<-|Hne].
  - rewrite last_cons, decide_True by done.
    by destruct (last (filter _ ids)).
  - rewrite decide_False by done. done.
Qed.

Lemma StronglySorted_last_filter {A} (R : relation A) `{!Reflexive R}
    (P : A → Prop) `{!∀ x, Decision (P x)} l y :
  StronglySorted R l → last (filter P l) = Some y →
  ∀ y', y' ∈ l → P y' → R y' y.
Proof.
  induction 1 as [|x l Hs IH Hx]; [done|].
  rewrite filter_cons. intros Hlast y' Hy' HP.
  destruct (decide (P x)) as [HPx|HPx].
  - rewrite last_cons in Hlast.
    destruct (last (filter P l)) as [z|] eqn:Hz.
    + injection Hlast as ->.
      apply elem_of_cons in Hy' as [->|Hy']; [|by apply IH].
      rewrite Forall_forall in Hx. apply Hx.
      apply last_Some_elem_of, list_elem_of_filter in Hz. apply Hz.
    + injection Hlast as <-. apply last_None in Hz.
      apply elem_of_cons in Hy' as [->|Hy']; [done|].
      assert (y' ∈ filter P l) as Hin by (by apply list_elem_of_filter).
      rewrite Hz in Hin. by apply elem_of_nil in Hin.
  - apply elem_of_cons in Hy' as [->|Hy']; [done|]. by apply IH.
Qed.

Lemma elem_of_sorted (U : gset string) x : x ∈ sorted U ↔ x ∈ U.
Proof. by rewrite sorted_Permutation, elem_of_elements. Qed.

(** X15.  In the row of a setup the eleven metadata keys hold the
    setup's fields, untouched by the component columns.  The column of a
    component file of the set holds the count, in this setup, of the
    greatest file of the set that takes this column name, and 0 when the
    setup does not use that file; when no other file of the set takes the
    name, this is the file's own count or 0. *)
Theorem row_holds_fields_and_counts setup (U : gset string) row counts :
  row_of setup U = inr row →
  component_counts setup = Some counts →
  (λ key, dict_lookup key row) <$> metadata_fields
  = [Some (JStr (filename setup)); Some (name setup); Some (uc2_verified setup);
     Some (collection setup); Some (author setup); Some (github_link setup);
     Some (description setup); Some (category setup); Some (version setup);
     Some (createdAt setup); Some (JInt (Z.of_nat (total_components setup)))] ∧
  (∀ x, x ∈ U →
     ∃ y, y ∈ U ∧ col_name y = col_name x ∧
          (∀ y', y' ∈ U → col_name y' = col_name x → String.le y' y) ∧
          dict_lookup (col_name x) row
          = Some (JInt (Z.of_nat (default 0 (counts !! y))))) ∧
  (∀ x, x ∈ U → (∀ y, y ∈ U → col_name y = col_name x → y = x) →
     dict_lookup (col_name x) row = Some (JInt (Z.of_nat (default 0 (counts !! x))))).
Proof.
  unfold row_of. intros Hrow Hc. rewrite Hc in Hrow. injection Hrow as <-.
  assert (∀ x, x ∈ U →
     ∃ y, y ∈ U ∧ col_name y = col_name x ∧
          (∀ y', y' ∈ U → col_name y' = col_name x → String.le y' y) ∧
          dict_lookup (col_name x) (add_component_columns counts U (row_literal setup))
          = Some (JInt (Z.of_nat (default 0 (counts !! y))))) as Hshared.
  { intros x Hx. rewrite dict_lookup_add_columns_last.
    destruct (last (filter (λ y, col_name y = col_name x) (sorted U))) as [y|] eqn:Hlast.
    - apply last_Some_elem_of in Hlast as Hy.
      apply list_elem_of_filter in Hy as [Hyx Hy]. apply elem_of_sorted in Hy.
      exists y. split_and!; [done|done| |done].
      intros y' Hy' Hyx'.
      eapply (StronglySorted_last_filter String.le _ (sorted U) y); [|done| |done].
      + apply Sorted_StronglySorted; [apply _|apply sorted_Sorted].
      + by apply elem_of_sorted.
    - apply last_None in Hlast.
      assert (x ∈ filter (λ y, col_name y = col_name x) (sorted U)) as Hin
        by (apply list_elem_of_filter; split; [done|by apply elem_of_sorted]).
      rewrite Hlast in Hin. by apply elem_of_nil in Hin. }
  split_and!.
  - unfold metadata_fields. cbn [fmap list_fmap].
    rewrite !dict_lookup_add_columns; [done|..];
      intros x Hx; apply (col_name_not_metadata x); rewrite Hx;
      unfold metadata_fields; set_solver.
  - exact Hshared.
  - intros x Hx Hone. destruct (Hshared x Hx) as (y & Hy & Hyx & _ & ->).
    by rewrite (Hone y Hy Hyx).
Qed.

Lemma row_holds_fields_and_counts_witness :
  row_of (setup_with "B.json" 1 {[ "nema17.stl" := 1 ]}) scenario_universe
    = inr (add_component_columns {[ "nema17.stl" := 1 ]} scenario_universe
             (row_literal (setup_with "B.json" 1 {[ "nema17.stl" := 1 ]}))) ∧
  component_counts (setup_with "B.json" 1 {[ "nema17.stl" := 1 ]})
    = Some {[ "nema17.stl" := 1 ]} ∧
  (λ key, dict_lookup key
            (add_component_columns {[ "nema17.stl" := 1 ]} scenario_universe
               (row_literal (setup_with "B.json" 1 {[ "nema17.stl" := 1 ]}))))
    <$> metadata_fields
  = [Some (JStr "B.json"); Some (JStr ""); Some (JBool false); Some (JStr "");
     Some (JStr ""); Some (JStr ""); Some (JStr ""); Some (JStr ""); Some (JStr "");
     Some (JStr ""); Some (JInt 1)].
Proof.
  assert (row_of (setup_with "B.json" 1 {[ "nema17.stl" := 1 ]}) scenario_universe
    = inr (add_component_columns {[ "nema17.stl" := 1 ]} scenario_universe
             (row_literal (setup_with "B.json" 1 {[ "nema17.stl" := 1 ]})))) as H1
    by reflexivity.
  assert (component_counts (setup_with "B.json" 1 {[ "nema17.stl" := 1 ]})
    = Some {[ "nema17.stl" := 1 ]}) as H2 by reflexivity.
  split; [exact H1|]. split; [exact H2|].
  exact (proj1 (row_holds_fields_and_counts _ _ _ _ H1 H2)).
Defined.

Lemma frame_cell_None v : frame_cell v = None ↔ is_missing v.
Proof.
  unfold is_missing. split.
  - destruct v as [| | |f| | |]; try done; [by left|]. destruct f; try done. by right.
  - by intros [-> | ->].
Qed.

Lemma field_value_document_field s c v :
  field_value s c = Some v → c ∈ document_fields.
Proof.
  unfold field_value, document_fields. intros H.
  repeat case_decide; subst; try done; by repeat constructor.
Qed.

Lemma document_fields_metadata c : c ∈ document_fields → c ∈ metadata_fields.
Proof.
  unfold document_fields, metadata_fields. intros Hc.
  repeat (apply elem_of_cons in Hc as [->|Hc]; [by repeat constructor|]).
  by apply elem_of_nil in Hc.
Qed.

(** The value a row dictionary holds under a column of the table: the
    record's own value under a document field, and a present string or
    integer under every other column. *)
Lemma filled_row_value (U : gset string) s c :
  c ∈ table_columns U →
  ∃ v, dict_lookup c (filled_row U s) = Some v ∧
       match field_value s c with
       | Some w => v = w
       | None => ¬ is_missing v
       end.
Proof.
  unfold table_columns. intros [Hc|Hc]%elem_of_app.
  - unfold filled_row. rewrite dict_lookup_add_columns.
    + unfold metadata_fields in Hc.
      repeat (apply elem_of_cons in Hc as [->|Hc];
              [eexists; split; [reflexivity|]; try done; by intros [?|?]|]).
      by apply elem_of_nil in Hc.
    + intros x Hx. apply (col_name_not_metadata x). by rewrite Hx.
  - apply list_elem_of_fmap in Hc as (x & -> & Hx).
    assert (field_value s (col_name x) = None) as ->.
    { destruct (field_value s (col_name x)) as [v|] eqn:Hf; [|done].
      apply field_value_document_field, document_fields_metadata in Hf.
      by destruct (col_name_not_metadata x). }
    unfold filled_row. rewrite dict_lookup_add_columns_last.
    destruct (last _) as [y|] eqn:Hlast.
    + eexists. split; [reflexivity|]. by intros [?|?].
    + apply last_None in Hlast.
      destruct (filter_nil_not_elem_of _ _ x Hlast eq_refl).
      eapply elem_of_sublist; [exact Hx|]. apply column_leaders_sublist.
Qed.

(** The cells of a row, column by column. *)
Lemma cells_of_spec (U : gset string) s :
  length (cells_of U s) = length (table_columns U) ∧
  ∀ i c, table_columns U !! i = Some c →
    ∃ cell, cells_of U s !! i = Some cell ∧
      (∀ v, field_value s c = Some v → cell = frame_cell v) ∧
      (cell = None ↔ ∃ v, field_value s c = Some v ∧ is_missing v).
Proof.
  unfold cells_of. split; [by rewrite length_fmap|].
  intros i c Hi. rewrite list_lookup_fmap, Hi. simpl.
  destruct (filled_row_value U s c) as (v & -> & Hv);
    [by eapply list_elem_of_lookup_2|].
  eexists. split; [reflexivity|]. simpl.
  destruct (field_value s c) as [w|]; subst.
  - split; [by intros ? [= <-]|]. rewrite frame_cell_None.
    split; [by eauto|]. by intros (? & [= <-] & ?).
  - split; [done|]. rewrite frame_cell_None. split; [done|]. by intros (? & ? & _).
Qed.

(** X16.  For a non-empty list of records the table is built exactly
    when every record carries its counts; otherwise the builder raises
    [KeyError].  The table built has the header of the table, without
    repetition, one row per record and in every row one cell per column.
    Every row is the row of one of the records: under a field copied
    from the document the cell holds the record's value, and a cell is
    missing exactly where the record holds [null] or NaN for such a
    field; the cells of the file name, of [total_components] and of the
    component columns are never missing. *)
Theorem build_table_outcome setups (U : gset string) :
  setups ≠ [] →
  match build_table setups U with
  | inr df =>
      Forall has_counts setups ∧
      columns df = table_columns U ∧
      NoDup (columns df) ∧
      length (values df) = length setups ∧
      Forall (λ row,
                length row = length (columns df) ∧
                ∃ s, s ∈ setups ∧
                  ∀ i c, columns df !! i = Some c →
                    ∃ cell, row !! i = Some cell ∧
                      (∀ v, field_value s c = Some v → cell = frame_cell v) ∧
                      (cell = None ↔ ∃ v, field_value s c = Some v ∧ is_missing v))
             (values df)
  | inl e => e = KeyError ∧ ¬ Forall has_counts setups
  end.
Proof.
  intros Hne. destruct (decide (Forall has_counts setups)) as [Hc|Hc].
  - rewrite build_table_spec by done.
    unfold the_table. cbn [values columns].
    split_and!; [done|done|apply table_columns_NoDup| |].
    + by rewrite merge_sort_Permutation, length_fmap.
    + rewrite merge_sort_Permutation.
      apply Forall_fmap, Forall_forall. intros s Hs. simpl.
      destruct (cells_of_spec U s) as [Hlen Hcells].
      split; [exact Hlen|]. exists s. split; [exact Hs|exact Hcells].
  - unfold build_table. rewrite rows_of_missing by done. done.
Qed.

Lemma build_table_outcome_witness :
  [nameless_setup] ≠ [] ∧
  ∃ df, build_table [nameless_setup] ∅ = inr df ∧
        Forall (λ row, row !! 1 = Some None) (values df).
Proof.
  assert ([nameless_setup] ≠ []) as Hne by (intros H; discriminate H).
  split; [exact Hne|].
  pose proof (build_table_outcome [nameless_setup] ∅ Hne) as Ht.
  destruct (build_table [nameless_setup] ∅) as [e|df].
  - destruct Ht as [_ Hn]. destruct Hn. repeat constructor. by eexists.
  - exists df. split; [reflexivity|].
    destruct Ht as (_ & Hcols & _ & _ & Hrows).
    eapply Forall_impl; [exact Hrows|]. simpl.
    intros row (_ & s & Hs & Hcells).
    apply list_elem_of_singleton in Hs as ->.
    destruct (Hcells 1 "name") as (cell & Hcell & _ & Hmissing).
    { rewrite Hcols. reflexivity. }
    rewrite Hcell. f_equal. apply Hmissing.
    exists JNull. split; [reflexivity|by left].
Defined.

(** ** The run after the scan *)

Lemma analyze_builds (basename : string → string) dir folder s l (U : gset string) :
  (analyze_setups_folder basename dir folder).2 = inr (s :: l, U) →
  build_table (s :: l) U = inr (the_table (s :: l) U).
Proof.
  destruct folder as [files|]; [|done].
  rewrite analyze_setups_folder_result.
  destruct (scan_docs basename files) as [e|rs] eqn:Hscan; [done|].
  simpl. intros [= Hrs _]. apply build_table_spec; [done|].
  apply scan_docs_records in Hscan as [Hc _].
  rewrite <- Hrs. apply Forall_fmap. eapply Forall_impl; [exact Hc|].
  intros [m c] Hm. by exists c.
Qed.

(** The whole of a table builder's call whose statistics block raises. *)
Lemma create_csv_database_raises
    (summary_statistics : DataFrame → list string * option exn)
    s l U output_file df lines e :
  build_table (s :: l) U = inr df →
  summary_statistics df = (lines, Some e) →
  create_csv_database summary_statistics (s :: l) U output_file
  = ([ToCsv output_file df;
      LogInfo ("CSV database saved to: " +:+ output_file);
      Print (nl +:+ str_repeat "=" 60);
      Print "SETUP ANALYSIS SUMMARY";
      Print (str_repeat "=" 60);
      Print ("Total setup files processed: " +:+ pretty (length (values df)));
      Print ("Total unique component files: " +:+ pretty (size U))]
     ++ (Print <$> lines),
     inl e).
Proof.
  intros Hb Hstats. unfold create_csv_database, run_summary_statistics.
  rewrite Hb. unfold lift. rewrite bind_unfold. cbn [fst snd app].
  rewrite Hstats, !print_all_unfold. cbn [fst snd].
  unfold print, logger_info. unfold bind, emit, ret, raise. cbn [app fst snd].
  rewrite app_nil_r. reflexivity.
Qed.

Lemma last_Forall {A} (P : A → Prop) l x : Forall P l → last l = Some x → P x.
Proof.
  intros Hl Hx%last_Some_elem_of. rewrite Forall_forall in Hl. by apply Hl.
Qed.

(** X17.  Once the scan has ended with a non-empty corpus the table is
    written, whatever the statistics block does afterwards: when that
    block raises, the run ends with its exception and the file stays
    written; the run ends normally exactly when the block does, and only
    then is ["Analysis complete!"] the last record of the run. *)
Theorem statistics_failure_keeps_the_table
    (basename : string → string)
    (summary_statistics : DataFrame → list string * option exn)
    files s l (U : gset string) :
  (analyze_setups_folder basename "./setups" (Some files)).2 = inr (s :: l, U) →
  ∃ df,
    build_table (s :: l) U = inr df ∧
    written_tables (main basename summary_statistics (Some files)).1
      = [("setups_analysis.csv", df)] ∧
    (main basename summary_statistics (Some files)).2
      = match (summary_statistics df).2 with
        | Some e => inl e
        | None => inr tt
        end ∧
    (last (main basename summary_statistics (Some files)).1
       = Some (LogInfo "Analysis complete!")
     ↔ (summary_statistics df).2 = None).
Proof.
  intros Hrun. exists (the_table (s :: l) U).
  pose proof (analyze_builds _ _ _ _ _ _ Hrun) as Hb.
  split; [done|]. split; [by apply main_table|].
  rewrite main_unfold. cbn zeta. rewrite Hrun. cbn iota.
  destruct (summary_statistics (the_table (s :: l) U)) as [lines [e|]] eqn:Hstats.
  - rewrite (create_csv_database_raises _ _ _ _ _ _ _ _ Hb Hstats). cbn [fst snd].
    split; [done|]. split; [|done].
    rewrite app_comm_cons, last_app. cbn [app].
    set (tail := _ :: _ :: _ :: _ :: _ :: _ :: _ :: (Print <$> lines)).
    assert (Forall (λ ev, ev ≠ LogInfo "Analysis complete!") tail) as Htail.
    { subst tail. repeat (constructor; [done|]).
      apply Forall_fmap, Forall_forall. by intros. }
    destruct (last tail) as [ev|] eqn:Hlast.
    + intros [= ->]. by apply (last_Forall _ _ _ Htail) in Hlast.
    + apply last_None in Hlast. by subst tail.
  - rewrite (create_csv_database_trace _ _ _ _ _ _ _ Hb Hstats). cbn [fst snd].
    split; [done|]. split; [intros _; done|]. intros _.
    rewrite app_comm_cons, !app_assoc. apply last_snoc.
Qed.

Lemma statistics_failure_keeps_the_table_witness :
  (analyze_setups_folder posixpath_basename "./setups" (Some [file_A; file_B])).2
    = inr (scenario_setups, scenario_universe) ∧
  ∃ df,
    written_tables
      (main posixpath_basename (λ _, ([], Some TypeError)) (Some [file_A; file_B])).1
      = [("setups_analysis.csv", df)] ∧
    (main posixpath_basename (λ _, ([], Some TypeError)) (Some [file_A; file_B])).2
      = inl TypeError.
Proof.
  assert ((analyze_setups_folder posixpath_basename "./setups" (Some [file_A; file_B])).2
          = inr (scenario_setups, scenario_universe)) as H
    by (vm_compute; reflexivity).
  split; [exact H|].
  destruct (statistics_failure_keeps_the_table posixpath_basename
              (λ _, ([], Some TypeError)) _ _ _ _ H) as (df & _ & Hw & Hr & _).
  exists df. split; [exact Hw|exact Hr].
Defined.

Lemma written_tables_csv f df tr :
  written_tables (ToCsv f df :: tr) = (f, df) :: written_tables tr.
Proof. reflexivity. Qed.

(** A table builder's call on records with counts starts with the write
    and writes nothing else. *)
Lemma create_csv_database_head
    (summary_statistics : DataFrame → list string * option exn)
    s l (U : gset string) output_file :
  Forall has_counts (s :: l) →
  ∃ t, (create_csv_database summary_statistics (s :: l) U output_file).1
       = ToCsv output_file (the_table (s :: l) U) :: t ∧
       written_tables t = [].
Proof.
  intros Hc.
  pose proof (written_tables_create summary_statistics (s :: l) U output_file
                ltac:(done) Hc) as Hw.
  assert (build_table (s :: l) U = inr (the_table (s :: l) U)) as Hb
    by (by apply build_table_spec).
  destruct (summary_statistics (the_table (s :: l) U)) as [lines [e|]] eqn:Hstats.
  - rewrite (create_csv_database_raises _ _ _ _ _ _ _ _ Hb Hstats) in *.
    cbn [fst app] in *. eexists. split; [reflexivity|].
    rewrite written_tables_csv in Hw. by injection Hw.
  - rewrite (create_csv_database_trace _ _ _ _ _ _ _ Hb Hstats) in *.
    cbn [fst app] in *. eexists. split; [reflexivity|].
    rewrite written_tables_csv in Hw. by injection Hw.
Qed.

Lemma analyze_has_counts (basename : string → string) dir folder setups
    (U : gset string) :
  (analyze_setups_folder basename dir folder).2 = inr (setups, U) →
  Forall has_counts setups.
Proof.
  destruct folder as [files|]; [|by intros [= <- _]].
  rewrite analyze_setups_folder_result.
  destruct (scan_docs basename files) as [e|rs] eqn:Hscan; [done|].
  simpl. intros [= <- _].
  apply scan_docs_records in Hscan as [Hc _].
  apply Forall_fmap. eapply Forall_impl; [exact Hc|].
  intros [m c] Hm. by exists c.
Qed.

(** X18.  In every run, whatever the folder, the trace is a stretch of
    log records, followed either by nothing or by the write of one table
    to ["setups_analysis.csv"] and, after it, no further write: nothing
    is printed before the table is written, or without one. *)
Theorem write_precedes_every_print
    (basename : string → string)
    (summary_statistics : DataFrame → list string * option exn) folder :
  ∃ logs rest,
    (main basename summary_statistics folder).1 = logs ++ rest ∧
    Forall is_log logs ∧
    (rest = [] ∨
     ∃ df rest', rest = ToCsv "setups_analysis.csv" df :: rest' ∧
                 written_tables rest' = []).
Proof.
  pose proof (analyze_setups_folder_logs basename "./setups" folder) as Hlogs.
  pose proof (analyze_has_counts basename "./setups" folder) as Hcounts.
  rewrite main_unfold. cbn zeta.
  destruct (analyze_setups_folder basename "./setups" folder) as [tr [e|[[|s l] U]]];
    cbn [fst snd] in *.
  - exists (LogInfo "Starting UC2 setup analysis..." :: tr), [].
    rewrite app_nil_r. split_and!; [done|by constructor|by left].
  - eexists _, []. rewrite app_nil_r. split_and!; [done| |by left].
    constructor; [done|]. apply Forall_app. split; [done|by repeat constructor].
  - destruct (create_csv_database_head summary_statistics s l U
                "setups_analysis.csv" (Hcounts _ _ eq_refl)) as (t & Ht & Hw).
    exists (LogInfo "Starting UC2 setup analysis..." :: tr).
    destruct (create_csv_database _ _ _ _) as [trc [e|[]]]; cbn [fst snd] in *;
      subst trc.
    + eexists. split_and!; [reflexivity|by constructor|]. right. eauto.
    + exists (ToCsv "setups_analysis.csv" (the_table (s :: l) U)
                :: t ++ [LogInfo "Analysis complete!"]).
      split_and!; [done|by constructor|]. right. eexists _, _. split; [done|].
      by rewrite written_tables_app, Hw.
Qed.

(** ** The totals of the component columns *)

Lemma build_table_inr setups (U : gset string) df :
  build_table setups U = inr df →
  df = the_table setups U ∧ setups ≠ [] ∧ Forall has_counts setups.
Proof.
  intros Hb. destruct (decide (Forall has_counts setups)) as [Hc|Hc].
  - destruct setups as [|s l]; [done|].
    rewrite build_table_spec in Hb by done. by injection Hb as <-.
  - unfold build_table in Hb. by rewrite rows_of_missing in Hb.
Qed.

Lemma col_name_startswith x : startswith "component_" (col_name x) = true.
Proof. rewrite col_name_string_map. by destruct (string_map sanitise x). Qed.

(** The cell of a component file that shares its column with no other
    file of the set. *)
Lemma filled_row_component_cell (U : gset string) s x :
  x ∈ U → (∀ y, y ∈ U → col_name y = col_name x → y = x) →
  dict_lookup (col_name x) (filled_row U s)
  = Some (JInt (Z.of_nat (default 0 (default ∅ (component_counts s) !! x)))).
Proof.
  intros Hx Hone. unfold filled_row. rewrite dict_lookup_add_columns_last.
  destruct (last (filter (λ y, col_name y = col_name x) (sorted U))) as [y|] eqn:Hlast.
  - apply last_Some_elem_of, list_elem_of_filter in Hlast as [Hyx Hy].
    apply elem_of_sorted in Hy. by rewrite (Hone y Hy Hyx).
  - apply last_None in Hlast.
    assert (x ∈ filter (λ y, col_name y = col_name x) (sorted U)) as Hin
      by (apply list_elem_of_filter; split; [done|by apply elem_of_sorted]).
    rewrite Hlast in Hin. by apply elem_of_nil in Hin.
Qed.

Lemma dict_lookup_Some_keys k (d : pydict) :
  is_Some (dict_lookup k d) → k ∈ dict_keys d.
Proof.
  unfold dict_keys. induction d as [|[k' v] d IH]; simpl.
  - by intros [? [=]].
  - case_decide as Hk; [subst; left|]. intros H. right. by apply IH.
Qed.

Lemma col_name_in_table_columns (U : gset string) x :
  x ∈ U → col_name x ∈ table_columns U.
Proof.
  intros Hx. rewrite <- (dict_keys_filled_row U (setup_with "" 0 ∅)).
  apply dict_lookup_Some_keys. unfold filled_row.
  rewrite dict_lookup_add_columns_last.
  destruct (last (filter (λ y, col_name y = col_name x) (sorted U))) as [y|] eqn:Hlast;
    [by eexists|].
  apply last_None in Hlast.
  assert (x ∈ filter (λ y, col_name y = col_name x) (sorted U)) as Hin
    by (apply list_elem_of_filter; split; [done|by apply elem_of_sorted]).
  rewrite Hlast in Hin. by apply elem_of_nil in Hin.
Qed.

Lemma sum_cells_Permutation (g : list (option json) → Z) rows1 rows2 :
  rows1 ≡ₚ rows2 →
  foldr (λ row acc, g row + acc)%Z 0%Z rows1
  = foldr (λ row acc, g row + acc)%Z 0%Z rows2.
Proof.
  induction 1 as [|r l1 l2 _ IH|r1 r2 l|l1 l2 l3 _ IH1 _ IH2]; simpl; lia.
Qed.

(** X19.  In the table built for a corpus, the column of a component
    file that shares its column name with no other file of the set adds
    up to the number of times the records of the corpus count that file;
    and it is with this total that the column enters the ranking of the
    summary. *)
Theorem column_total_is_usage setups (U : gset string) df x :
  build_table setups U = inr df →
  x ∈ U → (∀ y, y ∈ U → col_name y = col_name x → y = x) →
  column_sum df (col_name x) = usage x setups ∧
  (col_name x, usage x setups) ∈ component_totals df.
Proof.
  intros (-> & _ & _)%build_table_inr Hx Hone.
  assert (column_sum (the_table setups U) (col_name x) = usage x setups) as Hsum.
  { unfold column_sum, column_index. cbn [columns values the_table].
    destruct (list_find_elem_of (λ c, c = col_name x) (table_columns U) (col_name x))
      as [[i c] Hfind]; [by apply col_name_in_table_columns|done|].
    rewrite Hfind. cbn [fmap option_fmap option_map fst].
    apply list_find_Some in Hfind as (Hi & -> & _).
    rewrite (sum_cells_Permutation _ _ (cells_of U <$> setups))
      by apply merge_sort_Permutation.
    unfold usage. induction setups as [|s l IH]; [done|].
    cbn [fmap list_fmap foldr]. rewrite IH. f_equal.
    unfold cells_of. rewrite list_lookup_fmap, Hi. cbn [fmap option_fmap option_map mjoin option_join option_bind mbind].
    by rewrite filled_row_component_cell. }
  split; [done|].
  unfold component_totals. rewrite sort_values_descending_Permutation.
  apply list_elem_of_fmap. exists (col_name x). split; [by rewrite Hsum|].
  apply list_elem_of_filter. split; [apply col_name_startswith|].
  by apply col_name_in_table_columns.
Qed.

Lemma column_total_is_usage_witness :
  build_table scenario_setups scenario_universe = inr scenario_table ∧
  "nema17.stl" ∈ scenario_universe ∧
  column_sum scenario_table (col_name "nema17.stl") = usage "nema17.stl" scenario_setups.
Proof.
  assert (build_table scenario_setups scenario_universe = inr scenario_table) as H1
    by (vm_compute; reflexivity).
  assert ("nema17.stl" ∈ scenario_universe) as H2
    by (unfold scenario_universe; set_solver).
  assert (∀ y, y ∈ scenario_universe → col_name y = col_name "nema17.stl" →
               y = "nema17.stl") as H3.
  { intros y Hy. unfold scenario_universe in Hy.
    apply elem_of_union in Hy as [->%elem_of_singleton| ->%elem_of_singleton];
      [done|]. vm_compute. discriminate. }
  split; [exact H1|]. split; [exact H2|].
  exact (proj1 (column_total_is_usage _ _ _ _ H1 H2 H3)).
Defined.

(** ** The log of the scan *)

Section scan_log.
Variable basename : string → string.

Lemma scan_files_cons_log f rest acc (U : gset string) :
  scan_files basename (f :: rest) acc U
  = match document_of f with
    | None =>
        ((LogInfo ("Processing: " +:+ jf_name f) :: load_log f)
           ++ (scan_files basename rest acc U).1,
         (scan_files basename rest acc U).2)
    | Some data =>
        match scan_document basename data (jf_name f) with
        | inl e => (LogInfo ("Processing: " +:+ jf_name f) :: load_log f, inl e)
        | inr (m, c) =>
            ((LogInfo ("Processing: " +:+ jf_name f) :: load_log f)
               ++ (scan_files basename rest (acc ++ [m]) (U ∪ dom c)).1,
             (scan_files basename rest (acc ++ [m]) (U ∪ dom c)).2)
        end
    end.
Proof.
  cbn [scan_files]. unfold load_json_file, document_of, load_log.
  destruct (jf_load f) as [data|e|e].
  - rewrite !bind_unfold. cbn [logger_info emit ret fst snd app].
    destruct data; try reflexivity;
      rewrite bind_unfold; unfold lift; cbn [fst snd];
      destruct (scan_document _ _ _) as [?|[? ?]]; reflexivity.
  - rewrite !bind_unfold. reflexivity.
  - rewrite !bind_unfold. reflexivity.
Qed.

Lemma scan_files_log files acc (U : gset string) r :
  (scan_files basename files acc U).2 = inr r →
  (scan_files basename files acc U).1 = scan_log files.
Proof.
  revert acc U. induction files as [|f files IH]; intros acc U; [done|].
  rewrite scan_files_cons_log. unfold scan_log. cbn [mbind list_bind].
  destruct (document_of f) as [data|]; cbn [fst snd].
  - destruct (scan_document basename data (jf_name f)) as [e|[m c]]; [done|].
    cbn [fst snd]. intros Hr. by rewrite (IH _ _ Hr).
  - intros Hr. by rewrite (IH _ _ Hr).
Qed.
End scan_log.

(** X20.  The log of a scan that completes: the number of files found;
    then for each file, in the order of the folder, the notice that it is
    being processed, followed by the error when it did not load; then the
    number of records returned and the size of the set returned. *)
Theorem log_of_a_completed_scan
    (basename : string → string) dir files setups (U : gset string) :
  (analyze_setups_folder basename dir (Some files)).2 = inr (setups, U) →
  (analyze_setups_folder basename dir (Some files)).1
  = LogInfo ("Found " +:+ pretty (length files) +:+ " JSON files in " +:+ dir)
    :: scan_log files
    ++ [LogInfo ("Successfully processed " +:+ pretty (length setups) +:+ " setup files");
        LogInfo ("Found " +:+ pretty (size U) +:+ " unique component files")].
Proof.
  unfold analyze_setups_folder. rewrite !bind_unfold.
  cbn [logger_info emit fst snd app].
  pose proof (scan_files_log basename files [] ∅) as Hlog.
  destruct (scan_files basename files [] ∅) as [tr [e|res]]; cbn [fst snd] in *;
    [done|].
  rewrite !bind_unfold. cbn [fst snd ret app]. intros [= ->].
  rewrite (Hlog _ eq_refl). cbn [fst snd]. by rewrite app_nil_r.
Qed.

Lemma log_of_a_completed_scan_witness :
  (analyze_setups_folder posixpath_basename "./setups"
     (Some [file_B; broken_file])).2
    = inr ([setup_with "B.json" 1 ({[ "nema17.stl" := 1 ]} : gmap string nat)],
           ({[ "nema17.stl" ]} : gset string)) ∧
  (analyze_setups_folder posixpath_basename "./setups"
     (Some [file_B; broken_file])).1
  = [LogInfo "Found 2 JSON files in ./setups";
     LogInfo "Processing: B.json";
     LogInfo "Processing: broken.json";
     LogError "Invalid JSON in setups/broken.json: Expecting value";
     LogInfo "Successfully processed 1 setup files";
     LogInfo "Found 1 unique component files"].
Proof.
  assert ((analyze_setups_folder posixpath_basename "./setups"
             (Some [file_B; broken_file])).2
          = inr ([setup_with "B.json" 1 ({[ "nema17.stl" := 1 ]} : gmap string nat)],
                 ({[ "nema17.stl" ]} : gset string))) as H
    by (vm_compute; reflexivity).
  split; [exact H|].
  rewrite (log_of_a_completed_scan posixpath_basename _ _ _ _ H).
  vm_compute. reflexivity.
Defined.

(** ** The component cells of a row against its total *)

Lemma sum_values_delete (c : gmap string nat) y :
  sum_values c = default 0 (c !! y) + sum_values (delete y c).
Proof.
  destruct (c !! y) as [n|] eqn:Hy; simpl.
  - rewrite <- (insert_id c y n Hy) at 1.
    rewrite <- insert_delete_eq.
    by rewrite sum_values_insert_fresh by apply lookup_delete_eq.
  - by rewrite delete_id.
Qed.

Lemma sum_counts_le (c : gmap string nat) l :
  NoDup l → sum_list_with (λ y, default 0 (c !! y)) l ≤ sum_values c.
Proof.
  intros Hn. revert c. induction Hn as [|y l Hy Hn IH]; intros c; simpl; [lia|].
  rewrite (sum_values_delete c y).
  specialize (IH (delete y c)).
  assert (sum_list_with (λ z, default 0 (delete y c !! z)) l
          = sum_list_with (λ z, default 0 (c !! z)) l) as Heq.
  { clear IH Hn. induction l as [|z l IHl]; [done|]. simpl.
    rewrite lookup_delete_ne by (intros ->; apply Hy; left).
    rewrite IHl; [done|]. intros Hin. apply Hy. by right. }
  lia.
Qed.

Lemma sum_counts_eq (c : gmap string nat) l :
  NoDup l → (∀ k, is_Some (c !! k) → k ∈ l) →
  sum_list_with (λ y, default 0 (c !! y)) l = sum_values c.
Proof.
  intros Hn. revert c. induction Hn as [|y l Hy Hn IH]; intros c Hdom; simpl.
  - assert (c = ∅) as ->; [|by rewrite sum_values_empty].
    apply map_eq. intros k. rewrite lookup_empty.
    destruct (c !! k) as [n|] eqn:Hk; [|done].
    exfalso. apply (not_elem_of_nil k), Hdom. by exists n.
  - rewrite (sum_values_delete c y).
    rewrite <- (IH (delete y c)).
    + f_equal. clear IH Hn Hdom. induction l as [|z l IHl]; [done|]. simpl.
      rewrite lookup_delete_ne by (intros ->; apply Hy; left).
      rewrite IHl; [done|]. intros Hin. apply Hy. by right.
    + intros k [v Hk]. apply lookup_delete_Some in Hk as [Hne Hk].
      assert (k ∈ y :: l) as [->|Hin]%elem_of_cons by (apply Hdom; by eexists);
        done.
Qed.

Lemma column_owner_spec (U : gset string) x :
  x ∈ U → column_owner U x ∈ U ∧ col_name (column_owner U x) = col_name x.
Proof.
  intros Hx. unfold column_owner.
  destruct (last (filter _ (sorted U))) as [y|] eqn:Hlast; simpl; [|done].
  apply last_Some_elem_of, list_elem_of_filter in Hlast as [Hyx Hy].
  by apply elem_of_sorted in Hy.
Qed.

Lemma filled_row_cell_owner (U : gset string) s x :
  x ∈ U →
  dict_lookup (col_name x) (filled_row U s)
  = Some (JInt (Z.of_nat
       (default 0 (default ∅ (component_counts s) !! column_owner U x)))).
Proof.
  intros Hx. unfold filled_row, column_owner.
  rewrite dict_lookup_add_columns_last.
  destruct (last (filter (λ y, col_name y = col_name x) (sorted U))) as [y|] eqn:Hlast;
    [done|].
  apply last_None in Hlast.
  assert (x ∈ filter (λ y, col_name y = col_name x) (sorted U)) as Hin
    by (apply list_elem_of_filter; split; [done|by apply elem_of_sorted]).
  rewrite Hlast in Hin. by apply elem_of_nil in Hin.
Qed.

Lemma leaders_in_set (U : gset string) x :
  x ∈ column_leaders [] (sorted U) → x ∈ U.
Proof.
  intros Hx. apply elem_of_sorted.
  eapply elem_of_sublist; [done|apply column_leaders_sublist].
Qed.

(** The component cells of a row are integers, none of them missing. *)
Lemma drop_metadata_cells (U : gset string) s :
  drop (length metadata_fields) (cells_of U s)
  = (λ x, dict_lookup (col_name x) (filled_row U s))
      <$> column_leaders [] (sorted U).
Proof.
  unfold cells_of, table_columns. rewrite fmap_app.
  rewrite drop_app_length' by (by rewrite length_fmap).
  rewrite <- list_fmap_compose. apply list_fmap_ext. intros i x Hx. simpl.
  rewrite filled_row_cell_owner; [done|].
  apply leaders_in_set. by eapply list_elem_of_lookup_2.
Qed.

Lemma cells_sum_leaders (U : gset string) s leaders :
  (∀ x, x ∈ leaders → x ∈ U) →
  cells_sum ((λ x, dict_lookup (col_name x) (filled_row U s)) <$> leaders)
  = Z.of_nat (sum_list_with
                (λ y, default 0 (default ∅ (component_counts s) !! y))
                (column_owner U <$> leaders)).
Proof.
  induction leaders as [|x l IH]; intros Hl; [done|].
  cbn [fmap list_fmap]. unfold cells_sum in *. cbn [foldr sum_list_with].
  rewrite IH by (intros y Hy; apply Hl; by right).
  rewrite filled_row_cell_owner by (apply Hl; left). simpl. lia.
Qed.

Lemma column_owners_NoDup (U : gset string) :
  NoDup (column_owner U <$> column_leaders [] (sorted U)).
Proof.
  apply (NoDup_fmap_1 col_name). rewrite <- list_fmap_compose.
  erewrite list_fmap_ext.
  - pose proof (table_columns_NoDup U) as Hn. unfold table_columns in Hn.
    apply NoDup_app in Hn as (_ & _ & Hn). exact Hn.
  - intros i x Hx. simpl. apply column_owner_spec, leaders_in_set.
    apply list_elem_of_lookup. eauto.
Qed.

(** The component cells of a row never add up to more than the counts of
    the setup, and to exactly the counts when every counted file is in
    the set and no two files of the set share a column. *)
Lemma component_cells_sum (U : gset string) s c :
  component_counts s = Some c →
  (cells_sum (drop (length metadata_fields) (cells_of U s)) ≤ Z.of_nat (sum_values c))%Z ∧
  (NoDup (col_name <$> elements U) → (∀ k, is_Some (c !! k) → k ∈ U) →
   cells_sum (drop (length metadata_fields) (cells_of U s)) = Z.of_nat (sum_values c)).
Proof.
  intros Hc. rewrite drop_metadata_cells, cells_sum_leaders by apply leaders_in_set.
  rewrite Hc. simpl. split.
  - apply inj_le. apply sum_counts_le, column_owners_NoDup.
  - intros Hinj Hdom. f_equal.
    rewrite column_leaders_all.
    + erewrite (list_fmap_ext (column_owner U) id).
      * rewrite list_fmap_id. apply sum_counts_eq.
        -- rewrite sorted_Permutation. apply NoDup_elements.
        -- intros k Hk. apply elem_of_sorted. by apply Hdom.
      * intros i x Hx. simpl.
        assert (x ∈ U) as HxU
          by (apply elem_of_sorted, list_elem_of_lookup; eauto).
        destruct (column_owner_spec U x HxU) as [Ho Hn].
        apply elem_of_elements in Ho, HxU.
        destruct (list_elem_of_lookup (elements U) (column_owner U x)) as [[j Hj] _]; [done|].
        destruct (list_elem_of_lookup (elements U) x) as [[j' Hj'] _]; [done|].
        assert (j = j') as <-.
        { eapply NoDup_lookup; [exact Hinj|..].
          - by rewrite list_lookup_fmap, Hj.
          - by rewrite list_lookup_fmap, Hj', Hn. }
        congruence.
    + by rewrite sorted_Permutation.
    + intros x _. apply not_elem_of_nil.
Qed.

(** X21.  In the table a run writes, every row is the row of a record of
    the corpus, and its component cells add up to at most the sum of the
    record's counts, which is at most the record's [total_components];
    when no two files of the set share a column name the cells add up to
    exactly the sum of the counts. *)
Theorem row_component_cells_sum_le_total
    (basename : string → string)
    (summary_statistics : DataFrame → list string * option exn)
    files s l (U : gset string) :
  (analyze_setups_folder basename "./setups" (Some files)).2 = inr (s :: l, U) →
  ∃ df,
    written_tables (main basename summary_statistics (Some files)).1
      = [("setups_analysis.csv", df)] ∧
    ∀ row, row ∈ values df →
      ∃ setup counts,
        setup ∈ s :: l ∧ row = cells_of U setup ∧
        component_counts setup = Some counts ∧
        (cells_sum (drop (length metadata_fields) row) ≤ Z.of_nat (sum_values counts))%Z ∧
        sum_values counts ≤ total_components setup ∧
        (NoDup (col_name <$> elements U) →
         cells_sum (drop (length metadata_fields) row) = Z.of_nat (sum_values counts)).
Proof.
  intros Hrun. exists (the_table (s :: l) U).
  split; [by apply main_table|].
  intros row Hrow. unfold the_table in Hrow. cbn [values] in Hrow.
  rewrite merge_sort_Permutation in Hrow.
  apply list_elem_of_fmap in Hrow as (setup & -> & Hsetup).
  rewrite analyze_setups_folder_result in Hrun.
  destruct (scan_docs basename files) as [e|rs] eqn:Hscan; [done|].
  simpl in Hrun. injection Hrun as Hrs HU.
  rewrite <- Hrs in Hsetup.
  apply list_elem_of_fmap in Hsetup as ([m c] & -> & Hr).
  pose proof (scan_docs_origin basename files rs Hscan) as Horigin.
  rewrite Forall_forall in Horigin.
  destruct (Horigin _ Hr) as (f & data & _ & _ & Hdoc).
  destruct (scan_document_sum_le_total basename _ _ _ _ Hdoc) as (_ & Hc & _ & Hle & _).
  destruct (component_cells_sum U m c Hc) as [Hsum Heq].
  exists m, c. simpl. split_and!; try done.
  - rewrite <- Hrs. apply list_elem_of_fmap. by exists (m, c).
  - intros Hinj. apply Heq; [done|]. intros k Hk. rewrite <- HU.
    apply elem_of_union_list. exists (dom c). split; [|by apply elem_of_dom].
    apply list_elem_of_fmap. exists c. split; [done|].
    apply list_elem_of_fmap. by exists (m, c).
Qed.

Lemma row_component_cells_sum_le_total_witness :
  (analyze_setups_folder posixpath_basename "./setups" (Some [file_A; file_B])).2
    = inr (scenario_setups, scenario_universe) ∧
  ∃ df,
    written_tables
      (main posixpath_basename (λ _, ([], None)) (Some [file_A; file_B])).1
      = [("setups_analysis.csv", df)] ∧
    ∀ row, row ∈ values df →
      ∃ setup, setup ∈ scenario_setups ∧
        (cells_sum (drop (length metadata_fields) row)
         ≤ Z.of_nat (total_components setup))%Z.
Proof.
  assert ((analyze_setups_folder posixpath_basename "./setups" (Some [file_A; file_B])).2
          = inr (scenario_setups, scenario_universe)) as H
    by (vm_compute; reflexivity).
  split; [exact H|].
  destruct (row_component_cells_sum_le_total posixpath_basename (λ _, ([], None))
              _ _ _ _ H) as (df & Hw & Hrows).
  exists df. split; [exact Hw|].
  intros row Hrow.
  destruct (Hrows row Hrow) as (setup & counts & Hs & _ & _ & Hle1 & Hle2 & _).
  exists setup. split; [exact Hs|]. lia.
Defined.
